(** * Perplexity feed-ingestion runner: a shallow embedding

    Source: [services/feed-ingestion/runners/perplexity_runner.py].

    The file embeds the runner's query derivation, response cache, content
    extractor, item upserter and the two task entry points, and proves
    properties of them.

    Conventions.
    - A Python [str] is a [string]; every character stands for one code
      point below 256, so [String.length] is Python's [len].
    - [datetime] values are integers: microseconds since the epoch.
    - A Python [dict] read with [.get] is a record of [option] fields when
      its keys are fixed by the code, and an association list otherwise.
    - A table of the store is the list of its rows in the order the store
      scans them; [db.add] puts the new row last and [.first()] is the first
      row of that order which passes the filter. *)

From Stdlib Require Import List String Ascii ZArith Bool Arith Lia.
Import ListNotations.

Local Open Scope string_scope.
Local Open Scope Z_scope.

(** ** Python string methods *)

Module PyStr.

(** [c.isspace()] on the code points below 256. *)
Definition isspace (c : ascii) : bool :=
  let n := nat_of_ascii c in
  (((9 <=? n) && (n <=? 13)) || ((28 <=? n) && (n <=? 32))
   || (n =? 133) || (n =? 160))%nat.

Fixpoint lstrip_by (p : ascii -> bool) (s : string) : string :=
  match s with
  | EmptyString => EmptyString
  | String c r => if p c then lstrip_by p r else s
  end.

(** [rstrip_by p s] drops the longest suffix whose characters satisfy [p]. *)
Fixpoint rstrip_by (p : ascii -> bool) (s : string) : string :=
  match s with
  | EmptyString => EmptyString
  | String c r =>
      match rstrip_by p r with
      | EmptyString => if p c then EmptyString else String c EmptyString
      | r' => String c r'
      end
  end.

Definition strip_by (p : ascii -> bool) (s : string) : string :=
  rstrip_by p (lstrip_by p s).

(** [s.strip()] *)
Definition strip (s : string) : string := strip_by isspace s.

(** [s.strip(chars)] *)
Definition strip_chars (chars : string) (s : string) : string :=
  strip_by (fun c => existsb (Ascii.eqb c) (list_ascii_of_string chars)) s.

(** [s.startswith(p)] *)
Definition startswith (p s : string) : bool := String.prefix p s.

(** [s.endswith(p)] *)
Definition endswith (p s : string) : bool :=
  let n := String.length s in
  let k := String.length p in
  ((k <=? n)%nat && String.eqb (String.substring (n - k) k s) p)%bool.

(** [s.split(sep)] for a one-character separator. *)
Fixpoint split (sep : ascii) (s : string) : list string :=
  match s with
  | EmptyString => [EmptyString]
  | String c r =>
      if Ascii.eqb c sep then EmptyString :: split sep r
      else match split sep r with
           | [] => [String c EmptyString]
           | w :: ws => String c w :: ws
           end
  end.

(** [sep.join(l)] *)
Definition join (sep : string) (l : list string) : string := String.concat sep l.

Definition lower_char (c : ascii) : ascii :=
  let n := nat_of_ascii c in
  if (((65 <=? n) && (n <=? 90))
      || ((192 <=? n) && (n <=? 222) && negb (n =? 215)))%nat
  then ascii_of_nat (n + 32) else c.

(** [s.lower()] on the code points below 256. *)
Fixpoint lower (s : string) : string :=
  match s with
  | EmptyString => EmptyString
  | String c r => String (lower_char c) (lower r)
  end.

(** The line feed, ['\n']. *)
Definition LF : ascii := ascii_of_nat 10.

End PyStr.

(** ** JSON values: the payloads of the provider *)

#[warnings="-register-all"]
Inductive json : Type :=
| JNull
| JBool (b : bool)
| JNum (n : Z)
| JStr (s : string)
| JArr (l : list json)
| JObj (fields : list (string * json)).

(** [d[k]] / [k in d] on a dict kept as an association list. *)
Fixpoint dict_get {V : Type} (k : string) (d : list (string * V)) : option V :=
  match d with
  | [] => None
  | (k', v) :: r => if String.eqb k k' then Some v else dict_get k r
  end.

(** Python truthiness of a payload: [if response:]. *)
Definition truthy (j : json) : bool :=
  match j with
  | JNull => false
  | JBool b => b
  | JNum n => negb (n =? 0)
  | JStr s => negb (String.eqb s "")
  | JArr l => match l with [] => false | _ => true end
  | JObj f => match f with [] => false | _ => true end
  end.

(** [if x:] on an [Optional] payload. *)
Definition option_truthy (o : option json) : bool :=
  match o with
  | Some j => truthy j
  | None => false
  end.

(** ** Content extractor *)

(** A candidate item: the dict built by the extractor, whose only keys are
    ["title"], ["url"] and ["summary"]; [None] is an absent key. *)
Record Item : Type := mkItem {
  item_title : option string;
  item_url : option string;
  item_summary : option string
}.

(** The empty dict [{}]. *)
Definition empty_item : Item := mkItem None None None.

(** [if current_item:] -- a dict is true when it has a key. *)
Definition item_nonempty (i : Item) : bool :=
  match item_title i, item_url i, item_summary i with
  | None, None, None => false
  | _, _, _ => true
  end.

(** One turn of the [for line in lines] loop; the state is
    [(content_items, current_item)]. *)
Definition extract_step (st : list Item * Item) (raw : string) : list Item * Item :=
  let '(content_items, current_item) := st in
  let line := PyStr.strip raw in
  if String.eqb line "" then
    if item_nonempty current_item
    then ((content_items ++ [current_item])%list, empty_item)
    else (content_items, current_item)
  else if (PyStr.startswith "**" line && PyStr.endswith "**" line)%bool then
    let content_items' :=
      if item_nonempty current_item then (content_items ++ [current_item])%list
      else content_items in
    (content_items', mkItem (Some (PyStr.strip_chars "*" line)) None None)
  else if PyStr.startswith "http" line then
    (content_items,
     mkItem (item_title current_item) (Some line) (item_summary current_item))
  else if (50 <? String.length line)%nat then
    (content_items,
     mkItem (item_title current_item) (item_url current_item) (Some line))
  else (content_items, current_item).

(** The body of the [try], from [content.split] on. *)
Definition extract_lines (content : string) : list Item :=
  let '(content_items, current_item) :=
    fold_left extract_step (PyStr.split PyStr.LF content) ([], empty_item) in
  if item_nonempty current_item then (content_items ++ [current_item])%list
  else content_items.

(** [extract_content_from_response].  Every shape other than a dict whose
    ["choices"] is a non-empty list starting with a dict that holds a dict
    ["message"] with a string ["content"] either fails the guard or raises
    inside the [try] before any item is appended: the result is [[]]. *)
Definition extract_content_from_response (response : json) : list Item :=
  match response with
  | JObj fields =>
      match dict_get "choices" fields with
      | Some (JArr (JObj choice :: _)) =>
          match dict_get "message" choice with
          | Some (JObj message) =>
              match dict_get "content" message with
              | Some (JStr content) => extract_lines content
              | _ => []
              end
          | _ => []
          end
      | _ => []
      end
  | _ => []
  end.

(** ** Data model: the rows of the store *)

Record DataSource : Type := mkDataSource {
  ds_id : Z;
  ds_name : string;
  ds_display_name : string;
  ds_base_url : string;
  ds_rate_limit_per_minute : Z;
  ds_config_model : string;
  ds_is_active : bool
}.

Record UserCategory : Type := mkUserCategory {
  uc_id : Z;
  uc_user_id : Z;
  uc_category_name : string;
  uc_keywords : option (list string);   (* [None]: the column is NULL *)
  uc_is_active : bool
}.

Record UserDB : Type := mkUserDB {
  u_id : Z;
  u_username : string
}.

Record ContentCache : Type := mkContentCache {
  cc_cache_key : string;
  cc_data_source : string;
  cc_response_data : json;
  cc_expires_at : Z
}.

(** The query dicts: keys ["query"], ["category_id"], ["category_name"],
    ["user_id"].  [qd_query = None] and [qd_category_name = None] stand for
    an absent key; for the two ids an absent key and a [None] value read
    the same through [.get]. *)
Record QueryDict : Type := mkQueryDict {
  qd_query : option string;
  qd_category_id : option Z;
  qd_category_name : option string;
  qd_user_id : option Z
}.

(** An element of [queries]: a dict or a plain string. *)
Inductive QueryInfo : Type :=
| QDict (d : QueryDict)
| QStr (s : string).

(** The user keys merged into [raw_data]. *)
Record UserMeta : Type := mkUserMeta {
  um_user_category_id : option Z;
  um_user_id : Z;
  um_category_name : string
}.

Record RawData : Type := mkRawData {
  rd_item : Item;
  rd_user : option UserMeta
}.

Record FeedItem : Type := mkFeedItem {
  fi_title : option string;             (* [None]: the column is NULL *)
  fi_summary : string;
  fi_url : string;
  fi_source : string;
  fi_data_source_id : Z;
  fi_published_at : Z;
  fi_updated_at : option Z;
  fi_raw_data : RawData;
  fi_category : string;
  fi_tags : list string
}.

(** The [parameters] snapshot of a job. *)
Inductive JobParameters : Type :=
| SingleRunParameters (user_id : option Z) (queries : list QueryInfo)
| AllUsersParameters (users_count : Z).

Record IngestionJob : Type := mkIngestionJob {
  job_type : string;
  job_status : string;
  job_started_at : Z;
  job_completed_at : option Z;
  job_parameters : JobParameters;
  job_data_source_id : Z;
  job_items_created : option Z;
  job_items_updated : option Z;
  job_error_message : option string
}.

(** ** Query deriver *)

Definition question_about (topic : string) : string :=
  "What are the latest news and developments about " ++ topic ++ "?".

Definition question_in (topic : string) : string :=
  "What are the latest news and developments in " ++ topic ++ "?".

(** The body of the loop of [generate_personalized_queries]. *)
Definition query_for_category (category : UserCategory) : QueryDict :=
  let keywords :=
    match uc_keywords category with Some ks => ks | None => [] end in
  let category_name := uc_category_name category in
  match keywords with
  | _ :: _ =>
      mkQueryDict (Some (question_about (PyStr.join ", " keywords)))
        (Some (uc_id category)) (Some category_name) (Some (uc_user_id category))
  | [] =>
      mkQueryDict (Some (question_in category_name))
        (Some (uc_id category)) (Some category_name) (Some (uc_user_id category))
  end.

Definition generate_personalized_queries
    (user_categories : list UserCategory) : list QueryDict :=
  map query_for_category user_categories.

Definition fallback_queries : list string :=
  [ "What are the top technology news stories today?";
    "What are the major world events happening right now?";
    "What are the latest developments in AI and machine learning?";
    "What are the trending topics in science and research?";
    "What are the key business and finance news today?" ].

Definition generate_fallback_queries : list QueryDict :=
  map (fun query => mkQueryDict (Some query) None (Some "General") None)
      fallback_queries.

(** [get_user_categories]: the active categories of one user. *)
Definition get_user_categories
    (categories : list UserCategory) (user_id : Z) : list UserCategory :=
  filter (fun c => (uc_user_id c =? user_id) && uc_is_active c) categories.

(** [if user_id:] on an [Optional[int]]. *)
Definition user_id_given (user_id : option Z) : bool :=
  match user_id with
  | Some n => negb (n =? 0)
  | None => false
  end.

(** The [if queries is None:] block of [ingest_perplexity]. *)
Definition resolve_queries (categories : list UserCategory)
    (user_id : option Z) (queries : option (list QueryInfo)) : list QueryInfo :=
  match queries with
  | Some qs => qs
  | None =>
      match user_id with
      | Some uid =>
          if user_id_given user_id then
            match get_user_categories categories uid with
            | [] => map QDict generate_fallback_queries
            | user_categories =>
                map QDict (generate_personalized_queries user_categories)
            end
          else map QDict generate_fallback_queries
      | None => map QDict generate_fallback_queries
      end
  end.

(** ** Response cache *)

Definition microseconds_per_hour : Z := 3600 * 1000000.
Definition microseconds_per_day : Z := 24 * microseconds_per_hour.

(** The number of the UTC calendar day of an instant. *)
Definition day_of (now : Z) : Z := now / microseconds_per_day.

(** The filter of [get_cached_response]. *)
Definition cache_entry_matches (cache_key : string) (now : Z)
    (e : ContentCache) : bool :=
  String.eqb (cc_cache_key e) cache_key
  && String.eqb (cc_data_source e) "perplexity"
  && (now <? cc_expires_at e).

Definition get_cached_response (cache : list ContentCache)
    (cache_key : string) (now : Z) : option json :=
  match find (cache_entry_matches cache_key now) cache with
  | Some cache_entry => Some (cc_response_data cache_entry)
  | None => None
  end.

Definition cache_response (cache : list ContentCache) (cache_key : string)
    (response_data : json) (expire_hours : Z) (now : Z) : list ContentCache :=
  let expires_at := now + expire_hours * microseconds_per_hour in
  (cache ++ [mkContentCache cache_key "perplexity" response_data expires_at])%list.

(** ** Item upserter *)

(** The three reads of [category_info] at the top of [save_feed_items]. *)
Definition category_name_of (category_info : option QueryDict) : string :=
  match category_info with
  | Some d => match qd_category_name d with Some n => n | None => "General" end
  | None => "General"
  end.

Definition category_id_of (category_info : option QueryDict) : option Z :=
  match category_info with Some d => qd_category_id d | None => None end.

Definition user_id_of (category_info : option QueryDict) : option Z :=
  match category_info with Some d => qd_user_id d | None => None end.

(** The filter of the existence lookup.  A [None] title on the item side
    is compared as [title IS NULL]; a string never equals a NULL title. *)
Definition same_title (row_title item_title : option string) : bool :=
  match item_title, row_title with
  | None, None => true
  | Some t, Some t' => String.eqb t' t
  | _, _ => false
  end.

Definition feed_item_matches (item : Item) (data_source : DataSource)
    (row : FeedItem) : bool :=
  same_title (fi_title row) (item_title item)
  && (fi_data_source_id row =? ds_id data_source).

Definition or_default (o : option string) (d : string) : string :=
  match o with Some s => s | None => d end.

(** The update branch. *)
Definition update_feed_item (item : Item) (now : Z) (existing_item : FeedItem)
    : FeedItem :=
  mkFeedItem (fi_title existing_item)
    (or_default (item_summary item) (fi_summary existing_item))
    (or_default (item_url item) (fi_url existing_item))
    (fi_source existing_item) (fi_data_source_id existing_item)
    (fi_published_at existing_item) (Some now)
    (fi_raw_data existing_item) (fi_category existing_item)
    (fi_tags existing_item).

(** The create branch. *)
Definition new_feed_item (item : Item) (data_source : DataSource)
    (category_info : option QueryDict) (now : Z) : FeedItem :=
  let category_name := category_name_of category_info in
  let raw_data :=
    match user_id_of category_info with
    | Some uid =>
        if negb (uid =? 0)
        then mkRawData item
               (Some (mkUserMeta (category_id_of category_info) uid category_name))
        else mkRawData item None
    | None => mkRawData item None
    end in
  mkFeedItem (Some (or_default (item_title item) "Untitled"))
    (or_default (item_summary item) "")
    (or_default (item_url item) "")
    "Perplexity AI" (ds_id data_source) now None raw_data category_name
    (if String.eqb category_name "General" then ["ai"; "perplexity"]
     else ["ai"; "perplexity"; PyStr.lower category_name]).

(** Replace the first row that passes [p]. *)
Fixpoint update_first {A : Type} (p : A -> bool) (f : A -> A) (l : list A)
    : list A :=
  match l with
  | [] => []
  | x :: r => if p x then f x :: r else x :: update_first p f r
  end.

(** The state of the session inside [save_feed_items]: the rows of the
    table, the rows added and not yet committed, and the two counters. *)
Record SaveState : Type := mkSaveState {
  ss_rows : list FeedItem;
  ss_pending : list FeedItem;
  ss_created : Z;
  ss_updated : Z
}.

(** One turn of the [for item in content_items] loop, at clock reading
    [now].  With [autoflush] the lookup also sees the pending rows. *)
Definition save_step (autoflush : bool) (data_source : DataSource)
    (category_info : option QueryDict) (now : Z) (st : SaveState) (item : Item)
    : SaveState :=
  let p := feed_item_matches item data_source in
  if existsb p (ss_rows st) then
    mkSaveState (update_first p (update_feed_item item now) (ss_rows st))
      (ss_pending st) (ss_created st) (ss_updated st + 1)
  else if autoflush && existsb p (ss_pending st) then
    mkSaveState (ss_rows st)
      (update_first p (update_feed_item item now) (ss_pending st))
      (ss_created st) (ss_updated st + 1)
  else
    mkSaveState (ss_rows st)
      (ss_pending st ++ [new_feed_item item data_source category_info now])%list
      (ss_created st + 1) (ss_updated st).

(** ** The world of a task: store, session, clock and scheduler *)

(** Python exceptions.  [Retry countdown max_retries] is what
    [self.retry(countdown=..., max_retries=...)] hands to [raise]: the
    request to the scheduler to run the task again. *)
Inductive exn : Type :=
| KeyError (key : string)
| TypeError (msg : string)
| TimeoutError (msg : string)
| OtherError (msg : string)
| Retry (countdown max_retries : Z).

(** [str(e)] *)
Definition exn_str (e : exn) : string :=
  match e with
  | KeyError key => "'" ++ key ++ "'"
  | TypeError msg => msg
  | TimeoutError msg => msg
  | OtherError msg => msg
  | Retry _ _ => "Retry"
  end.

(** The [meta] of a [PROGRESS] state update. *)
Inductive Progress : Type :=
| QueryProgress (current_query : string) (processed total : Z) (category : string)
| UserProgress (current_user : string) (processed_users total_users : Z).

(** Values of the result dicts of the tasks. *)
Inductive pyval : Type :=
| PNone
| PInt (n : Z)
| PStr (s : string).

Definition pydict : Type := list (string * pyval).

Record World : Type := mkWorld {
  w_data_sources : list DataSource;
  w_user_categories : list UserCategory;
  w_users : list UserDB;
  w_content_cache : list ContentCache;
  w_feed_items : list FeedItem;
  w_jobs : list IngestionJob;
  w_open_sessions : nat;       (* sessions made by [SessionLocal()] and not closed *)
  w_ticks : nat;               (* reads of the clock so far *)
  w_progress : list Progress   (* state updates sent to the scheduler *)
}.

Inductive Outcome (A : Type) : Type :=
| Return (a : A)
| Raise (e : exn).
Arguments Return {A} a.
Arguments Raise {A} e.

(** Computations over the world that return or raise. *)
Definition M (A : Type) : Type := World -> Outcome A * World.

Definition ret {A : Type} (a : A) : M A := fun w => (Return a, w).

Definition raise {A : Type} (e : exn) : M A := fun w => (Raise e, w).

Definition bind {A B : Type} (m : M A) (k : A -> M B) : M B :=
  fun w =>
    match m w with
    | (Return a, w') => k a w'
    | (Raise e, w') => (Raise e, w')
    end.

Declare Scope run_scope.
Delimit Scope run_scope with run.
Notation "x <- m ;; k" := (bind m (fun x => k))
  (at level 61, m at next level, right associativity) : run_scope.
Notation "m ;;; k" := (bind m (fun _ => k))
  (at level 61, right associativity) : run_scope.

(** [try: m  except Exception as e: h e] *)
Definition try_except {A : Type} (m : M A) (h : exn -> M A) : M A :=
  fun w =>
    match m w with
    | (Return a, w') => (Return a, w')
    | (Raise e, w') => h e w'
    end.

(** [try: m  finally: f] *)
Definition try_finally {A : Type} (m : M A) (f : M unit) : M A :=
  fun w =>
    let '(r, w') := m w in
    match f w' with
    | (Return _, w'') => (r, w'')
    | (Raise e, w'') => (Raise e, w'')
    end.

Definition gets {A : Type} (f : World -> A) : M A := fun w => (Return (f w), w).

Definition modify (f : World -> World) : M unit := fun w => (Return tt, f w).

(** Field updates of the world. *)
Definition set_data_sources (l : list DataSource) (w : World) : World :=
  mkWorld l (w_user_categories w) (w_users w) (w_content_cache w)
    (w_feed_items w) (w_jobs w) (w_open_sessions w) (w_ticks w) (w_progress w).

Definition set_content_cache (l : list ContentCache) (w : World) : World :=
  mkWorld (w_data_sources w) (w_user_categories w) (w_users w) l
    (w_feed_items w) (w_jobs w) (w_open_sessions w) (w_ticks w) (w_progress w).

Definition set_feed_items (l : list FeedItem) (w : World) : World :=
  mkWorld (w_data_sources w) (w_user_categories w) (w_users w)
    (w_content_cache w) l (w_jobs w) (w_open_sessions w) (w_ticks w)
    (w_progress w).

Definition set_jobs (l : list IngestionJob) (w : World) : World :=
  mkWorld (w_data_sources w) (w_user_categories w) (w_users w)
    (w_content_cache w) (w_feed_items w) l (w_open_sessions w) (w_ticks w)
    (w_progress w).

Definition set_open_sessions (n : nat) (w : World) : World :=
  mkWorld (w_data_sources w) (w_user_categories w) (w_users w)
    (w_content_cache w) (w_feed_items w) (w_jobs w) n (w_ticks w)
    (w_progress w).

Definition set_ticks (n : nat) (w : World) : World :=
  mkWorld (w_data_sources w) (w_user_categories w) (w_users w)
    (w_content_cache w) (w_feed_items w) (w_jobs w) (w_open_sessions w) n
    (w_progress w).

Definition set_progress (l : list Progress) (w : World) : World :=
  mkWorld (w_data_sources w) (w_user_categories w) (w_users w)
    (w_content_cache w) (w_feed_items w) (w_jobs w) (w_open_sessions w)
    (w_ticks w) l.

(** [SessionLocal()] in [PerplexityRunner.__init__]. *)
Definition open_session : M unit :=
  modify (fun w => set_open_sessions (S (w_open_sessions w)) w).

(** [runner.db.close()] *)
Definition close_session : M unit :=
  modify (fun w => set_open_sessions (pred (w_open_sessions w)) w).

(** [self.update_state(state="PROGRESS", meta=...)] *)
Definition update_state (meta : Progress) : M unit :=
  modify (fun w => set_progress (w_progress w ++ [meta])%list w).

(** [runner.db.add(job); runner.db.commit()]: the new row is the last one;
    its position is the handle kept in [job]. *)
Definition add_job (job : IngestionJob) : M nat :=
  fun w => (Return (List.length (w_jobs w)), set_jobs (w_jobs w ++ [job])%list w).

Fixpoint update_nth {A : Type} (n : nat) (f : A -> A) (l : list A) : list A :=
  match l, n with
  | [], _ => []
  | x :: r, O => f x :: r
  | x :: r, S n' => x :: update_nth n' f r
  end.

(** Assignments to the fields of [job], then [runner.db.commit()]. *)
Definition modify_job (job : nat) (f : IngestionJob -> IngestionJob) : M unit :=
  modify (fun w => set_jobs (update_nth job f (w_jobs w)) w).

Definition job_completed (now created updated : Z) (j : IngestionJob)
    : IngestionJob :=
  mkIngestionJob (job_type j) "completed" (job_started_at j) (Some now)
    (job_parameters j) (job_data_source_id j) (Some created) (Some updated)
    (job_error_message j).

Definition job_failed (now : Z) (e : exn) (j : IngestionJob) : IngestionJob :=
  mkIngestionJob (job_type j) "failed" (job_started_at j) (Some now)
    (job_parameters j) (job_data_source_id j) (job_items_created j)
    (job_items_updated j) (Some (exn_str e)).

(** What [requests.post(...)], [raise_for_status()] and [response.json()]
    come to for one request. *)
Inductive HttpOutcome : Type :=
| HttpOk (result : json)
| HttpRequestException
| HttpOtherError (msg : string).

(** What [ingest_perplexity.delay(id).get(timeout=300)] comes to. *)
Inductive SubOutcome : Type :=
| SubReturned (user_result : pydict)
| SubTimedOut
| SubFailed (msg : string).

Definition default_model : string := "llama-3.1-sonar-small-128k-online".

Definition perplexity_base_url : string :=
  "https://api.perplexity.ai/chat/completions".

Definition error_result : pydict := [("error", PStr "Data source not found")].

Definition pyval_of_option (o : option Z) : pyval :=
  match o with Some n => PInt n | None => PNone end.

(** [type(v).__name__] *)
Definition py_type_name (v : pyval) : string :=
  match v with
  | PNone => "NoneType"
  | PInt _ => "int"
  | PStr _ => "str"
  end.

(** The text of the [TypeError] of [total += v] for an [int] total. *)
Definition unsupported_add (v : pyval) : string :=
  "unsupported operand type(s) for +=: 'int' and '" ++ py_type_name v ++ "'".

(** [total += d[key]] *)
Definition add_count (total : Z) (key : string) (d : pydict) : M Z :=
  match dict_get key d with
  | Some (PInt n) => ret (total + n)
  | Some v => raise (TypeError (unsupported_add v))
  | None => raise (KeyError key)
  end.

(** The entry of the [queries] snapshot for one query. *)
Definition query_snapshot (q : QueryInfo) : QueryInfo :=
  match q with
  | QDict d => match qd_query d with Some s => QStr s | None => q end
  | QStr _ => q
  end.

Definition general_info : QueryDict :=
  mkQueryDict None None (Some "General") None.

Definition fresh_data_source_id (l : list DataSource) : Z :=
  1 + fold_right Z.max 0 (map ds_id l).

(** ** The runner and the two tasks *)

Section Runner.

Local Open Scope run_scope.

(** The collaborators outside the runner. *)
Variable clock : nat -> Z.
  (* [datetime.utcnow()]: the reading of the n-th call *)
Variable api_key : option string.
  (* [os.getenv("PERPLEXITY_API_KEY")] *)
Variable http_post : string -> string -> HttpOutcome.
  (* the provider's answer to a query sent with a model *)
Variable md5_hexdigest : string -> string.
  (* [hashlib.md5(s.encode()).hexdigest()] *)
Variable date_text : Z -> string.
  (* the ['%Y-%m-%d'] text of a day number *)
Variable autoflush : bool.
  (* the [autoflush] setting of [SessionLocal] *)
Variable default_is_active : bool.
  (* the column default of [DataSource.is_active] *)
Variable sub_run : Z -> SubOutcome.
  (* the fate of the sub-task started for a user id; the sub-task runs in
     another worker with a session of its own, and its rows are not part
     of the world of the task that waits for it *)

Definition utcnow : M Z :=
  fun w => (Return (clock (w_ticks w)), set_ticks (S (w_ticks w)) w).

(** [get_data_source] *)
Definition get_data_source : M (option DataSource) :=
  found <- gets (fun w =>
             find (fun d => String.eqb (ds_name d) "perplexity")
                  (w_data_sources w)) ;;
  data_source <-
    match found with
    | Some d => ret d
    | None =>
        l <- gets w_data_sources ;;
        let d := mkDataSource (fresh_data_source_id l) "perplexity"
                   "Perplexity AI" perplexity_base_url 60 default_model
                   default_is_active in
        modify (set_data_sources (l ++ [d])) ;;;
        ret d
    end ;;
  ret (if ds_is_active data_source then Some data_source else None).

(** [create_cache_key] at clock reading [now]. *)
Definition cache_key_at (query model : string) (now : Z) : string :=
  md5_hexdigest (query ++ ":" ++ model ++ ":" ++ date_text (day_of now)).

Definition create_cache_key (query model : string) : M string :=
  now <- utcnow ;;
  ret (cache_key_at query model now).

(** [if not self.api_key] *)
Definition api_key_missing : bool :=
  match api_key with
  | Some k => String.eqb k ""
  | None => true
  end.

(** The request of [query_perplexity], from [requests.post] on. *)
Definition post_and_cache (query model cache_key : string) : M (option json) :=
  match http_post query model with
  | HttpOk result =>
      now <- utcnow ;;
      cache <- gets w_content_cache ;;
      modify (set_content_cache (cache_response cache cache_key result 24 now)) ;;;
      ret (Some result)
  | HttpRequestException => ret None
  | HttpOtherError msg => raise (OtherError msg)
  end.

(** [query_perplexity] *)
Definition query_perplexity (query model : string) : M (option json) :=
  if api_key_missing then ret None
  else
    cache_key <- create_cache_key query model ;;
    now <- utcnow ;;
    cache <- gets w_content_cache ;;
    let cached_response := get_cached_response cache cache_key now in
    if option_truthy cached_response then ret cached_response
    else post_and_cache query model cache_key.

(** The [for item in content_items] loop of [save_feed_items]; each turn
    reads the clock once, in either branch. *)
Fixpoint save_loop (data_source : DataSource)
    (category_info : option QueryDict) (content_items : list Item)
    (st : SaveState) : M SaveState :=
  match content_items with
  | [] => ret st
  | item :: rest =>
      now <- utcnow ;;
      save_loop data_source category_info rest
        (save_step autoflush data_source category_info now st item)
  end.

(** The state [save_loop] ends in when it starts at clock reading number
    [tick]. *)
Fixpoint save_fold (data_source : DataSource)
    (category_info : option QueryDict) (tick : nat)
    (content_items : list Item) (st : SaveState) : SaveState :=
  match content_items with
  | [] => st
  | item :: rest =>
      save_fold data_source category_info (S tick) rest
        (save_step autoflush data_source category_info (clock tick) st item)
  end.

(** [save_feed_items]; the pair is [(created, updated)]. *)
Definition save_feed_items (content_items : list Item)
    (data_source : DataSource) (category_info : option QueryDict)
    : M (Z * Z) :=
  rows <- gets w_feed_items ;;
  st <- save_loop data_source category_info content_items
          (mkSaveState rows [] 0 0) ;;
  modify (set_feed_items (ss_rows st ++ ss_pending st)) ;;;
  ret (ss_created st, ss_updated st).

(** The [for i, query_info in enumerate(queries)] loop of
    [ingest_perplexity]; [i] is the index of the head of [queries] and
    the pair is [(total_created, total_updated)]. *)
Fixpoint run_queries (data_source : DataSource) (total : Z) (i : Z)
    (queries : list QueryInfo) (totals : Z * Z) : M (Z * Z) :=
  match queries with
  | [] => ret totals
  | query_info :: rest =>
      qc <- match query_info with
            | QDict d =>
                match qd_query d with
                | Some query => ret (query, d)
                | None => raise (KeyError "query")
                end
            | QStr s => ret (s, general_info)
            end ;;
      let '(query, category_info) := qc in
      update_state (QueryProgress query (i + 1) total
                      (category_name_of (Some category_info))) ;;;
      response <- query_perplexity query default_model ;;
      totals' <-
        match response with
        | Some r =>
            if truthy r then
              let content_items := extract_content_from_response r in
              results <- save_feed_items content_items data_source
                           (Some category_info) ;;
              ret (fst totals + fst results, snd totals + snd results)%Z
            else ret totals
        | None => ret totals
        end ;;
      run_queries data_source total (i + 1) rest totals'
  end.

Definition single_run_result (created updated queries_processed : Z)
    (user_id : option Z) : pydict :=
  [ ("status", PStr "completed");
    ("created", PInt created);
    ("updated", PInt updated);
    ("queries_processed", PInt queries_processed);
    ("user_id", pyval_of_option user_id) ].

(** The [except] block shared, word for word, by the two tasks. *)
Definition fail_and_retry (job : nat) (e : exn) : M pydict :=
  now <- utcnow ;;
  modify_job job (job_failed now e) ;;;
  raise (Retry 60 3).

(** The task [ingest_perplexity(user_id, queries)]. *)
Definition ingest_perplexity (user_id : option Z)
    (queries : option (list QueryInfo)) : M pydict :=
  open_session ;;;
  data_source <- get_data_source ;;
  match data_source with
  | None => ret error_result
  | Some data_source =>
      categories <- gets w_user_categories ;;
      let queries := resolve_queries categories user_id queries in
      started_at <- utcnow ;;
      job <- add_job
               (mkIngestionJob "perplexity" "running" started_at None
                  (SingleRunParameters user_id (map query_snapshot queries))
                  (ds_id data_source) None None None) ;;
      try_finally
        (try_except
           (totals <- run_queries data_source (Z.of_nat (List.length queries))
                        0 queries (0, 0)%Z ;;
            now <- utcnow ;;
            modify_job job (job_completed now (fst totals) (snd totals)) ;;;
            ret (single_run_result (fst totals) (snd totals)
                   (Z.of_nat (List.length queries)) user_id))
           (fail_and_retry job))
        close_session
  end.

(** The users of the fan-out: those with an active category, each once. *)
Definition users_with_categories (w : World) : list UserDB :=
  filter (fun u =>
            existsb (fun c => (uc_user_id c =? u_id u) && uc_is_active c)
                    (w_user_categories w))
         (w_users w).

(** The state of the fan-out loop. *)
Record FanOut : Type := mkFanOut {
  total_created : Z;
  total_updated : Z;
  users_processed : Z
}.

(** The [for user in users_with_categories] loop. *)
Fixpoint run_users (total_users : Z) (users : list UserDB) (st : FanOut)
    : M FanOut :=
  match users with
  | [] => ret st
  | user :: rest =>
      update_state (UserProgress (u_username user) (users_processed st + 1)
                      total_users) ;;;
      user_result <-
        match sub_run (u_id user) with
        | SubReturned r => ret r
        | SubTimedOut => raise (TimeoutError "The operation timed out.")
        | SubFailed msg => raise (OtherError msg)
        end ;;
      st' <-
        match user_result, dict_get "created" user_result with
        | _ :: _, Some _ =>
            c <- add_count (total_created st) "created" user_result ;;
            u <- add_count (total_updated st) "updated" user_result ;;
            ret (mkFanOut c u (users_processed st + 1))
        | _, _ => ret st
        end ;;
      run_users total_users rest st'
  end.

Definition fan_out_result (st : FanOut) (total_users : Z) : pydict :=
  [ ("status", PStr "completed");
    ("created", PInt (total_created st));
    ("updated", PInt (total_updated st));
    ("users_processed", PInt (users_processed st));
    ("total_users", PInt total_users) ].

(** The task [ingest_perplexity_for_all_users()]. *)
Definition ingest_perplexity_for_all_users : M pydict :=
  open_session ;;;
  data_source <- get_data_source ;;
  match data_source with
  | None => ret error_result
  | Some data_source =>
      users <- gets users_with_categories ;;
      let total_users := Z.of_nat (List.length users) in
      started_at <- utcnow ;;
      job <- add_job
               (mkIngestionJob "perplexity_all_users" "running" started_at
                  None (AllUsersParameters total_users) (ds_id data_source)
                  None None None) ;;
      try_finally
        (try_except
           (st <- run_users total_users users (mkFanOut 0 0 0) ;;
            now <- utcnow ;;
            modify_job job
              (job_completed now (total_created st) (total_updated st)) ;;;
            ret (fan_out_result st total_users))
           (fail_and_retry job))
        close_session
  end.

(** Program points.  The part of [ingest_perplexity] that runs before the
    [try]: [None] at the early return, else the data source, the resolved
    queries and the job. *)
Definition single_run_entry (user_id : option Z)
    (queries : option (list QueryInfo))
    : M (option (DataSource * list QueryInfo * nat)) :=
  open_session ;;;
  data_source <- get_data_source ;;
  match data_source with
  | None => ret None
  | Some data_source =>
      categories <- gets w_user_categories ;;
      let queries := resolve_queries categories user_id queries in
      started_at <- utcnow ;;
      job <- add_job
               (mkIngestionJob "perplexity" "running" started_at None
                  (SingleRunParameters user_id (map query_snapshot queries))
                  (ds_id data_source) None None None) ;;
      ret (Some (data_source, queries, job))
  end.

(** The same for [ingest_perplexity_for_all_users]. *)
Definition fan_out_entry : M (option (DataSource * list UserDB * nat)) :=
  open_session ;;;
  data_source <- get_data_source ;;
  match data_source with
  | None => ret None
  | Some data_source =>
      users <- gets users_with_categories ;;
      started_at <- utcnow ;;
      job <- add_job
               (mkIngestionJob "perplexity_all_users" "running" started_at
                  None (AllUsersParameters (Z.of_nat (List.length users)))
                  (ds_id data_source) None None None) ;;
      ret (Some (data_source, users, job))
  end.

(** ** Sample inputs *)

Definition sample_text : string :=
  "**Title**" ++ String PyStr.LF
  ("http://example.com" ++ String PyStr.LF
  ("A summary line that is long enough to exceed fifty characters easily."
   ++ String PyStr.LF "")).

Definition sample_item : Item :=
  mkItem (Some "Title") (Some "http://example.com")
    (Some "A summary line that is long enough to exceed fifty characters easily.").

Definition sample_response : json :=
  JObj [("choices",
         JArr [JObj [("message", JObj [("content", JStr sample_text)])]])].

Definition sample_category : UserCategory :=
  mkUserCategory 11 7 "Transfers" (Some ["Arsenal"; "Chelsea"]) true.

Definition dormant_category : UserCategory :=
  mkUserCategory 12 7 "Rumours" (Some ["loan"]) false.

Definition active_source : DataSource :=
  mkDataSource 1 "perplexity" "Perplexity AI" perplexity_base_url 60
    default_model true.

Definition inactive_source : DataSource :=
  mkDataSource 1 "perplexity" "Perplexity AI" perplexity_base_url 60
    default_model false.

Definition world_of (sources : list DataSource)
    (categories : list UserCategory) (users : list UserDB) : World :=
  mkWorld sources categories users [] [] [] 0 0 [].

(** One second between two reads of the clock. *)
Definition sample_clock (n : nat) : Z := Z.of_nat n * 1000000.

Definition no_network (query model : string) : HttpOutcome :=
  HttpRequestException.

Definition plain_digest (s : string) : string := s.

Definition plain_date (d : Z) : string := "2024-01-01".

(** No row of data source [ds] in [l] has a NULL title. *)
Definition titles_set (ds : DataSource) (l : list FeedItem) : Prop :=
  forall row, In row l -> fi_data_source_id row = ds_id ds ->
              fi_title row <> None.

(** The part of the world a task keeps for itself: the job rows and the
    open sessions. *)
Definition job_view (w : World) : list IngestionJob * nat :=
  (w_jobs w, w_open_sessions w).

(** [m] leaves the view [f] of the world as it found it. *)
Definition preserves {A B : Type} (f : World -> B) (m : M A) : Prop :=
  forall w, f (snd (m w)) = f w.

(** The queries of a run that raises inside the loop: one dict without
    the key ["query"]. *)
Definition keyless_queries : list QueryInfo :=
  [QDict (mkQueryDict None None (Some "Transfers") None)].

Definition alice : UserDB := mkUserDB 7 "alice".

Definition other_item : Item := mkItem (Some "Other") None None.

Definition untitled_item : Item :=
  mkItem None (Some "http://example.com/a") None.

Definition first_payload : json := JObj [("id", JStr "first")].

Definition second_payload : json := JObj [("id", JStr "second")].

Definition error_sub_run (user_id : Z) : SubOutcome :=
  SubReturned error_result.

Definition late_sub_run (user_id : Z) : SubOutcome := SubTimedOut.

(** What the extractor guarantees of a field it has set. *)
Definition fields_checked (i : Item) : Prop :=
  (forall t, item_title i = Some t ->
             PyStr.startswith "*" t = false /\ PyStr.endswith "*" t = false)
  /\ (forall u, item_url i = Some u -> PyStr.startswith "http" u = true)
  /\ (forall s, item_summary i = Some s ->
                (50 < String.length s)%nat
                /\ PyStr.startswith "http" s = false).

(** A line that is not blank once stripped. *)
Definition nonblank (raw : string) : bool :=
  negb (String.eqb (PyStr.strip raw) "").

(** The last character of a string. *)
Fixpoint last_char (s : string) : option ascii :=
  match s with
  | EmptyString => None
  | String c EmptyString => Some c
  | String _ r => last_char r
  end.

(** The items the extractor holds after some lines: those flushed, and
    the open one when it has a key. *)
Definition held_items (st : list Item * Item) : nat :=
  (List.length (fst st) + (if item_nonempty (snd st) then 1 else 0))%nat.


(** [row'] is [row] up to the three fields an update may write. *)
Definition same_identity (row row' : FeedItem) : Prop :=
  fi_title row' = fi_title row
  /\ fi_source row' = fi_source row
  /\ fi_data_source_id row' = fi_data_source_id row
  /\ fi_published_at row' = fi_published_at row
  /\ fi_raw_data row' = fi_raw_data row
  /\ fi_category row' = fi_category row
  /\ fi_tags row' = fi_tags row.

(** [row'] is [row] up to its update time. *)
Definition touched_only (row row' : FeedItem) : Prop :=
  same_identity row row'
  /\ fi_summary row' = fi_summary row
  /\ fi_url row' = fi_url row.


(** The text of a query of [queries], when it has one. *)
Definition query_text (q : QueryInfo) : option string :=
  match q with
  | QDict d => qd_query d
  | QStr s => Some s
  end.

(** The category label reported for a query of [queries]. *)
Definition query_category (q : QueryInfo) : string :=
  match q with
  | QDict d => category_name_of (Some d)
  | QStr _ => "General"
  end.

(** The rows a task shares with others: feed items and cache. *)
Definition store_view (w : World) : list FeedItem * list ContentCache :=
  (w_feed_items w, w_content_cache w).

(** The count a user's sub-run reported under [key]. *)
Definition reported (key : string) (user : UserDB) : Z :=
  match sub_run (u_id user) with
  | SubReturned r =>
      match dict_get key r with
      | Some (PInt n) => n
      | _ => 0
      end
  | _ => 0
  end.

Definition sum_reported (key : string) (users : list UserDB) : Z :=
  fold_right Z.add 0 (map (reported key) users).


(** A stored feed item of the sample data source. *)
Definition stored_row : FeedItem :=
  mkFeedItem (Some "Other") "An earlier summary" "http://example.com/old"
    "Perplexity AI" 1 0 None (mkRawData other_item None) "General"
    ["ai"; "perplexity"].

Definition world_with_row : World :=
  mkWorld [active_source] [] [] [] [stored_row] [] 0 0 [].

(** A cache that holds an answer to the query "q", good for 24 hours. *)
Definition cached_world : World :=
  mkWorld [active_source] [] []
    [mkContentCache "q:llama-3.1-sonar-small-128k-online:2024-01-01"
       "perplexity" first_payload (24 * microseconds_per_hour)]
    [] [] 0 0 [].

(** A provider that answers every query with the same payload. *)
Definition answering (query model : string) : HttpOutcome :=
  HttpOk first_payload.

(** Sub-runs that all report 2 created and 1 updated. *)
Definition counting_sub_run (user_id : Z) : SubOutcome :=
  SubReturned [ ("status", PStr "completed"); ("created", PInt 2);
                ("updated", PInt 1); ("queries_processed", PInt 5);
                ("user_id", PInt user_id) ].

Definition bare_category : UserCategory :=
  mkUserCategory 13 7 "Premier League" None true.


(** [k] occurs in [s]. *)
Definition occurs_in (k s : string) : Prop :=
  exists pre post, s = pre ++ k ++ post.

(** ** Properties *)

(** *** Content extractor *)

(** C3.  A response whose first completion text is the sample text of
    three lines (an emphasised title, a url, a long line) is extracted
    to exactly one item with that title, url and summary. *)
Theorem extract_sample_text (fields choice message : list (string * json))
    (rest : list json) :
  dict_get "choices" fields = Some (JArr (JObj choice :: rest)) ->
  dict_get "message" choice = Some (JObj message) ->
  dict_get "content" message = Some (JStr sample_text) ->
  extract_content_from_response (JObj fields) = [sample_item].
Proof.
  intros Hchoices Hmessage Hcontent.
  unfold extract_content_from_response.
  rewrite Hchoices, Hmessage, Hcontent.
  vm_compute. reflexivity.
Qed.

(** *** Query deriver *)

Lemma string_app_assoc (a b c : string) : (a ++ b) ++ c = a ++ (b ++ c).
Proof.
  induction a as [|ch a IH]; simpl; [reflexivity | now rewrite IH].
Qed.

Lemma string_app_empty_r (a : string) : a ++ "" = a.
Proof.
  induction a as [|ch a IH]; simpl; [reflexivity | now rewrite IH].
Qed.

Lemma join_occurs (sep : string) (ks : list string) (k : string) :
  In k ks -> occurs_in k (PyStr.join sep ks).
Proof.
  unfold PyStr.join.
  induction ks as [|x rest IH]; intros Hin; [contradiction|].
  destruct Hin as [-> | Hin].
  - exists "". destruct rest as [|y rest'].
    + exists "". simpl. now rewrite string_app_empty_r.
    + exists (sep ++ String.concat sep (y :: rest')). reflexivity.
  - destruct rest as [|y rest']; [contradiction|].
    destruct (IH Hin) as (pre & post & E).
    exists (x ++ sep ++ pre), post.
    change (String.concat sep (x :: y :: rest'))
      with (x ++ sep ++ String.concat sep (y :: rest')).
    rewrite E. now rewrite !string_app_assoc.
Qed.

Lemma occurs_in_context (k s pre post : string) :
  occurs_in k s -> occurs_in k (pre ++ s ++ post).
Proof.
  intros (a & b & ->). exists (pre ++ a), (b ++ post).
  now rewrite !string_app_assoc.
Qed.

(** C6.  The query derived for a category with a non-empty keyword list
    is the question "What are the latest news and developments about
    ...?" over the keywords joined by [", "]; every keyword occurs in
    it; and it carries the category's id, name and user id. *)
Theorem keyword_query_attached (user_categories : list UserCategory)
    (i : nat) (category : UserCategory) (keywords : list string) :
  nth_error user_categories i = Some category ->
  uc_keywords category = Some keywords ->
  keywords <> [] ->
  exists q,
    nth_error (generate_personalized_queries user_categories) i = Some q
    /\ qd_query q
       = Some ("What are the latest news and developments about "
               ++ PyStr.join ", " keywords ++ "?")
    /\ (forall k text, In k keywords -> qd_query q = Some text ->
                       occurs_in k text)
    /\ qd_category_id q = Some (uc_id category)
    /\ qd_category_name q = Some (uc_category_name category)
    /\ qd_user_id q = Some (uc_user_id category).
Proof.
  intros Hnth Hkw Hne.
  exists (query_for_category category).
  unfold generate_personalized_queries.
  rewrite nth_error_map, Hnth. cbn [option_map].
  unfold query_for_category, question_about. rewrite Hkw.
  destruct keywords as [|k0 ks]; [congruence|].
  cbn [qd_query qd_category_id qd_category_name qd_user_id].
  repeat split.
  intros k text Hin Htext. injection Htext as <-.
  apply (occurs_in_context k (PyStr.join ", " (k0 :: ks))
           "What are the latest news and developments about " "?").
  apply join_occurs. exact Hin.
Qed.

(** C5, as amended.  For a user without active categories the query
    selection of the single run takes the fallback branch, which is the
    list selected when no user is given: five fixed queries with
    category name "General" and neither category id nor user id. *)
Theorem no_categories_fallback (categories : list UserCategory) (uid : Z) :
  get_user_categories categories uid = [] ->
  resolve_queries categories (Some uid) None
    = map QDict generate_fallback_queries
  /\ resolve_queries categories None None = map QDict generate_fallback_queries
  /\ map qd_query generate_fallback_queries = map Some fallback_queries
  /\ List.length generate_fallback_queries = 5%nat
  /\ Forall (fun q => qd_category_name q = Some "General"
                      /\ qd_category_id q = None /\ qd_user_id q = None)
            generate_fallback_queries.
Proof.
  intros Hnone. unfold resolve_queries.
  rewrite Hnone.
  split; [destruct (user_id_given (Some uid)); reflexivity|].
  split; [reflexivity|].
  split; [reflexivity|].
  split; [reflexivity|].
  repeat constructor.
Qed.

(** *** Response cache *)

Lemma find_app_none {A : Type} (p : A -> bool) (l l' : list A) :
  find p l = None -> find p (l ++ l') = find p l'.
Proof.
  induction l as [|x l IH]; simpl; [reflexivity|].
  destruct (p x); [discriminate | exact IH].
Qed.

Lemma find_app_some {A : Type} (p : A -> bool) (l l' : list A) (x : A) :
  find p l = Some x -> find p (l ++ l') = Some x.
Proof.
  induction l as [|y l IH]; simpl; [discriminate|].
  destruct (p y); [trivial | exact IH].
Qed.

(** Two instants of one calendar day are less than 24 hours apart. *)
Lemma same_day_within_a_day (t t' : Z) :
  day_of t' = day_of t -> t' < t + 24 * microseconds_per_hour.
Proof.
  unfold day_of, microseconds_per_day, microseconds_per_hour.
  intros Hday.
  assert (Hpos : 0 < 24 * (3600 * 1000000)) by lia.
  pose proof (Z.div_mod t (24 * (3600 * 1000000)) ltac:(lia)) as Ht.
  pose proof (Z.div_mod t' (24 * (3600 * 1000000)) ltac:(lia)) as Ht'.
  pose proof (Z.mod_pos_bound t _ Hpos).
  pose proof (Z.mod_pos_bound t' _ Hpos).
  rewrite Hday in Ht'. lia.
Qed.

(** The key depends on the instant through its calendar day only. *)
Lemma cache_key_same_day (query model : string) (t t' : Z) :
  day_of t' = day_of t ->
  cache_key_at query model t' = cache_key_at query model t.
Proof.
  intros Hday. unfold cache_key_at. now rewrite Hday.
Qed.

Lemma new_entry_matches (key : string) (payload : json) (expires now : Z) :
  now < expires ->
  cache_entry_matches key now (mkContentCache key "perplexity" payload expires)
  = true.
Proof.
  intros Hlive. unfold cache_entry_matches. simpl.
  rewrite String.eqb_refl. simpl. now apply Z.ltb_lt.
Qed.

Lemma new_entry_expired (key : string) (payload : json) (expires now : Z) :
  expires <= now ->
  cache_entry_matches key now (mkContentCache key "perplexity" payload expires)
  = false.
Proof.
  intros Hdead. unfold cache_entry_matches. simpl.
  rewrite String.eqb_refl. simpl. now apply Z.ltb_ge.
Qed.

(** A read returns the payload of the first row that passes the filter. *)
Lemma get_cached_response_first (cache : list ContentCache) (key : string)
    (now : Z) (payload : json) :
  get_cached_response cache key now = Some payload <->
  exists e, find (cache_entry_matches key now) cache = Some e
            /\ cc_response_data e = payload.
Proof.
  unfold get_cached_response.
  destruct (find (cache_entry_matches key now) cache) as [e|]; split.
  - intros [= <-]. now exists e.
  - intros (e' & [= <-] & <-). reflexivity.
  - discriminate.
  - intros (e' & [=] & _).
Qed.

(** A read of a key whose rows have all expired finds nothing. *)
Lemma get_cached_response_expired (cache : list ContentCache) (key : string)
    (now : Z) :
  (forall e, In e cache -> cc_cache_key e = key -> cc_expires_at e <= now) ->
  get_cached_response cache key now = None.
Proof.
  intros Hexpired. unfold get_cached_response.
  destruct (find (cache_entry_matches key now) cache) as [e|] eqn:Hfind;
    [|reflexivity].
  apply find_some in Hfind. destruct Hfind as [Hin Hmatch].
  unfold cache_entry_matches in Hmatch.
  apply andb_prop in Hmatch. destruct Hmatch as [Hkd Hlive].
  apply andb_prop in Hkd. destruct Hkd as [Hk _].
  apply String.eqb_eq in Hk. apply Z.ltb_lt in Hlive.
  specialize (Hexpired e Hin Hk). lia.
Qed.

(** C4, as amended.  (1) A put with a lifetime of at least 24 hours
    followed by a get of the key of the same query and model on the same
    calendar day returns the stored payload, when no row stored earlier
    passes the filter of that get.  (2) A get of a key whose rows all
    expire at or before the current time returns nothing.  (3) Two puts
    under one key are both kept; the get returns the payload of the
    first until its expiration and, from then on, that of the second
    until its own expiration. *)
Theorem cache_put_then_get (cache : list ContentCache) (key : string)
    (now : Z) :
  (find (cache_entry_matches key now) cache = None ->
   forall query model payload expire_hours now_put,
      key = cache_key_at query model now_put ->
      day_of now = day_of now_put ->
      24 <= expire_hours ->
      get_cached_response
        (cache_response cache (cache_key_at query model now_put) payload
           expire_hours now_put)
        (cache_key_at query model now) now
      = Some payload)
  /\ ((forall e, In e cache -> cc_cache_key e = key -> cc_expires_at e <= now) ->
      get_cached_response cache key now = None)
  /\ (find (cache_entry_matches key now) cache = None ->
      forall p1 p2 h1 h2 t1 t2,
        let e1 := mkContentCache key "perplexity" p1
                    (t1 + h1 * microseconds_per_hour) in
        let e2 := mkContentCache key "perplexity" p2
                    (t2 + h2 * microseconds_per_hour) in
        let cache2 :=
          cache_response (cache_response cache key p1 h1 t1) key p2 h2 t2 in
        cache2 = (cache ++ [e1; e2])%list
        /\ (now < cc_expires_at e1 ->
            get_cached_response cache2 key now = Some p1)
        /\ (cc_expires_at e1 <= now < cc_expires_at e2 ->
            get_cached_response cache2 key now = Some p2)).
Proof.
  split; [|split].
  - intros Hfree query model payload expire_hours now_put -> Hday Httl.
    rewrite (cache_key_same_day query model now_put now Hday).
    unfold get_cached_response, cache_response.
    rewrite (find_app_none _ _ _ Hfree). simpl.
    rewrite new_entry_matches; [reflexivity|].
    pose proof (same_day_within_a_day now_put now Hday).
    unfold microseconds_per_hour in *. lia.
  - apply get_cached_response_expired.
  - intros Hfree p1 p2 h1 h2 t1 t2 e1 e2 cache2.
    assert (Hshape : cache2 = (cache ++ [e1; e2])%list).
    { unfold cache2, cache_response. now rewrite <- app_assoc. }
    split; [exact Hshape|]. rewrite Hshape.
    unfold get_cached_response.
    rewrite (find_app_none _ _ _ Hfree). simpl.
    split.
    + intros Hlive. unfold e1 in *. simpl in Hlive.
      now rewrite new_entry_matches.
    + intros [Hdead Hlive]. unfold e1, e2 in *. simpl in Hdead, Hlive.
      rewrite new_entry_expired by assumption.
      now rewrite new_entry_matches.
Qed.

(** *** Item upserter *)

Lemma save_loop_run (ds : DataSource) (ci : option QueryDict)
    (items : list Item) :
  forall (st : SaveState) (w : World),
    save_loop ds ci items st w
    = (Return (save_fold ds ci (w_ticks w) items st),
       set_ticks (w_ticks w + List.length items) w).
Proof.
  induction items as [|item rest IH]; intros st w.
  - destruct w. unfold set_ticks. simpl. now rewrite Nat.add_0_r.
  - simpl. unfold bind, utcnow. rewrite IH.
    destruct w. unfold set_ticks. simpl. now rewrite Nat.add_succ_r.
Qed.

Lemma save_feed_items_run (items : list Item) (ds : DataSource)
    (ci : option QueryDict) (w : World) :
  let st := save_fold ds ci (w_ticks w) items
              (mkSaveState (w_feed_items w) [] 0 0) in
  save_feed_items items ds ci w
  = (Return (ss_created st, ss_updated st),
     set_feed_items (ss_rows st ++ ss_pending st)
       (set_ticks (w_ticks w + List.length items) w)).
Proof.
  unfold save_feed_items, bind, gets, modify, ret.
  rewrite save_loop_run. reflexivity.
Qed.

(** The update branch leaves the title and the data source of a row. *)
Lemma update_keeps_match (item item' : Item) (ds : DataSource) (now : Z)
    (row : FeedItem) :
  feed_item_matches item ds (update_feed_item item' now row)
  = feed_item_matches item ds row.
Proof. reflexivity. Qed.

Lemma existsb_update_first {A : Type} (p q : A -> bool) (f : A -> A)
    (l : list A) :
  (forall x, q (f x) = q x) ->
  existsb q (update_first p f l) = existsb q l.
Proof.
  intros Hkeep. induction l as [|x l IH]; simpl; [reflexivity|].
  destruct (p x); simpl; [now rewrite Hkeep | now rewrite IH].
Qed.

(** A row created for a titled item is found by the lookup of that item. *)
Lemma new_item_matches (item : Item) (t : string) (ds : DataSource)
    (ci : option QueryDict) (now : Z) :
  item_title item = Some t ->
  feed_item_matches item ds (new_feed_item item ds ci now) = true.
Proof.
  intros Ht. unfold feed_item_matches, new_feed_item. simpl.
  rewrite Ht. simpl. now rewrite String.eqb_refl, Z.eqb_refl.
Qed.

(** A row created for one title is not found under another title. *)
Lemma new_item_other_title (item other : Item) (t t' : string)
    (ds : DataSource) (ci : option QueryDict) (now : Z) :
  item_title item = Some t -> item_title other = Some t' -> t' <> t ->
  feed_item_matches other ds (new_feed_item item ds ci now) = false.
Proof.
  intros Ht Ht' Hne. unfold feed_item_matches, new_feed_item. simpl.
  rewrite Ht, Ht'. simpl.
  destruct (String.eqb_spec t t') as [E|_]; [congruence | reflexivity].
Qed.

(** A row created by [save_feed_items] has a title, also for an item
    without one; the lookup of an item without a title does not find it. *)
Lemma new_item_not_null (item lookup : Item) (ds : DataSource)
    (ci : option QueryDict) (now : Z) :
  item_title lookup = None ->
  feed_item_matches lookup ds (new_feed_item item ds ci now) = false.
Proof.
  intros Hnone. unfold feed_item_matches, new_feed_item. simpl.
  now rewrite Hnone.
Qed.

Lemma titles_set_no_match (ds : DataSource) (l : list FeedItem)
    (item : Item) :
  titles_set ds l -> item_title item = None ->
  existsb (feed_item_matches item ds) l = false.
Proof.
  intros Hset Hnone.
  destruct (existsb (feed_item_matches item ds) l) eqn:E; [|reflexivity].
  apply existsb_exists in E. destruct E as (row & Hin & Hmatch).
  unfold feed_item_matches in Hmatch. rewrite Hnone in Hmatch.
  apply andb_prop in Hmatch. destruct Hmatch as [Htitle Hds].
  apply Z.eqb_eq in Hds.
  destruct (fi_title row) eqn:Hrow; [discriminate|].
  now elim (Hset row Hin Hds).
Qed.

Lemma save_step_update (ds : DataSource) (ci : option QueryDict) (now : Z)
    (st : SaveState) (item : Item) :
  existsb (feed_item_matches item ds) (ss_rows st) = true ->
  save_step autoflush ds ci now st item
  = mkSaveState
      (update_first (feed_item_matches item ds) (update_feed_item item now)
         (ss_rows st))
      (ss_pending st) (ss_created st) (ss_updated st + 1).
Proof.
  intros Hfound. unfold save_step. now rewrite Hfound.
Qed.

Lemma save_step_create (ds : DataSource) (ci : option QueryDict) (now : Z)
    (st : SaveState) (item : Item) :
  existsb (feed_item_matches item ds) (ss_rows st) = false ->
  existsb (feed_item_matches item ds) (ss_pending st) = false ->
  save_step autoflush ds ci now st item
  = mkSaveState (ss_rows st)
      (ss_pending st ++ [new_feed_item item ds ci now])
      (ss_created st + 1) (ss_updated st).
Proof.
  intros Hrows Hpending. unfold save_step.
  now rewrite Hrows, Hpending, andb_false_r.
Qed.

(** After a save of one titled item the table holds a row for it. *)
Lemma saved_item_present (item : Item) (t : string) (ds : DataSource)
    (ci : option QueryDict) (now : Z) (rows : list FeedItem) :
  item_title item = Some t ->
  let st := save_step autoflush ds ci now (mkSaveState rows [] 0 0) item in
  existsb (feed_item_matches item ds) (ss_rows st ++ ss_pending st) = true.
Proof.
  intros Ht.
  destruct (existsb (feed_item_matches item ds) rows) eqn:E; cbv zeta.
  - rewrite save_step_update by exact E. simpl.
    rewrite app_nil_r, existsb_update_first; [exact E|].
    intros x. apply update_keeps_match.
  - rewrite save_step_create by (simpl; trivial). simpl.
    rewrite existsb_app, E. simpl.
    now rewrite (new_item_matches item t).
Qed.

(** C1.  A second save of a titled item for the same data source counts
    one update and no creation; the first save counts one creation when
    the store held no row of that title and data source; and one save of
    two items with distinct titles that the store does not hold counts
    two creations and no update. *)
Theorem save_same_item_twice (data_source : DataSource) (item : Item)
    (t : string) (category_info category_info' : option QueryDict)
    (w : World) :
  item_title item = Some t ->
  let first := save_feed_items [item] data_source category_info w in
  let second :=
    save_feed_items [item] data_source category_info' (snd first) in
  fst second = Return (0, 1)
  /\ (existsb (feed_item_matches item data_source) (w_feed_items w) = false ->
      fst first = Return (1, 0))
  /\ (forall other t',
        item_title other = Some t' -> t' <> t ->
        existsb (feed_item_matches item data_source) (w_feed_items w) = false ->
        existsb (feed_item_matches other data_source) (w_feed_items w) = false ->
        fst (save_feed_items [item; other] data_source category_info w)
        = Return (2, 0)).
Proof.
  intros Ht first second. split; [|split].
  - unfold second, first. rewrite !save_feed_items_run.
    cbn [fst snd save_fold w_feed_items w_ticks set_feed_items set_ticks].
    pose proof (saved_item_present item t data_source category_info
                  (clock (w_ticks w)) (w_feed_items w) Ht) as Hpresent.
    cbv zeta in Hpresent.
    rewrite (save_step_update data_source category_info') by exact Hpresent.
    reflexivity.
  - intros Hfresh. unfold first. rewrite save_feed_items_run.
    cbn [fst save_fold].
    rewrite save_step_create by (simpl; trivial). reflexivity.
  - intros other t' Ht' Hne Hfresh Hfresh'.
    rewrite save_feed_items_run. cbn [fst save_fold].
    rewrite (save_step_create data_source category_info _ _ item)
      by (simpl; trivial).
    rewrite save_step_create; [reflexivity | exact Hfresh' |].
    simpl. now rewrite (new_item_other_title item other t t').
Qed.

Lemma titles_set_app (ds : DataSource) (l l' : list FeedItem) :
  titles_set ds l -> titles_set ds l' -> titles_set ds (l ++ l').
Proof.
  intros Hl Hl' row Hin. apply in_app_or in Hin.
  destruct Hin; [now apply Hl | now apply Hl'].
Qed.

Lemma titles_set_untitled (ds : DataSource) (l : list FeedItem) :
  Forall (fun row => fi_title row = Some "Untitled"
                     /\ fi_data_source_id row = ds_id ds) l ->
  titles_set ds l.
Proof.
  intros Hall row Hin _. rewrite Forall_forall in Hall.
  destruct (Hall row Hin) as [-> _]. discriminate.
Qed.

(** The loop over items without a title: nothing is found, every turn
    appends one row titled "Untitled". *)
Lemma save_fold_titleless (ds : DataSource) (ci : option QueryDict)
    (items : list Item) :
  Forall (fun i => item_title i = None) items ->
  forall (tick : nat) (st : SaveState),
    titles_set ds (ss_rows st) -> titles_set ds (ss_pending st) ->
    exists created,
      save_fold ds ci tick items st
      = mkSaveState (ss_rows st) (ss_pending st ++ created)
          (ss_created st + Z.of_nat (List.length items)) (ss_updated st)
      /\ List.length created = List.length items
      /\ Forall (fun row => fi_title row = Some "Untitled"
                            /\ fi_data_source_id row = ds_id ds) created.
Proof.
  induction 1 as [|item rest Hnone _ IH]; intros tick st Hrows Hpending.
  - exists []. destruct st; simpl.
    rewrite app_nil_r, Z.add_0_r. auto.
  - cbn [save_fold].
    rewrite save_step_create by now apply titles_set_no_match.
    set (row := new_feed_item item ds ci (clock tick)).
    assert (Hrow : fi_title row = Some "Untitled"
                   /\ fi_data_source_id row = ds_id ds).
    { unfold row, new_feed_item. simpl. now rewrite Hnone. }
    destruct (IH (S tick)
                (mkSaveState (ss_rows st) (ss_pending st ++ [row])
                   (ss_created st + 1) (ss_updated st)))
      as (created & Hfold & Hlen & Hall).
    + exact Hrows.
    + apply titles_set_app; [exact Hpending|].
      apply titles_set_untitled. now constructor.
    + exists (row :: created). rewrite Hfold. simpl.
      rewrite <- app_assoc. simpl.
      repeat split; try (constructor; assumption); try lia.
      f_equal. lia.
Qed.

(** C10.  In a store whose rows of the data source all have a title (as
    all rows made by the upserter do), a save of items without a title
    never updates: every item is counted as created and adds one more
    row titled "Untitled" for the data source, and the rows of the data
    source still all have a title afterwards. *)
Theorem titleless_items_pile_up (data_source : DataSource)
    (content_items : list Item) (category_info : option QueryDict)
    (w : World) :
  Forall (fun i => item_title i = None) content_items ->
  titles_set data_source (w_feed_items w) ->
  let run := save_feed_items content_items data_source category_info w in
  exists created,
    fst run = Return (Z.of_nat (List.length content_items), 0)
    /\ w_feed_items (snd run) = (w_feed_items w ++ created)%list
    /\ List.length created = List.length content_items
    /\ Forall (fun row => fi_title row = Some "Untitled"
                          /\ fi_data_source_id row = ds_id data_source)
              created
    /\ titles_set data_source (w_feed_items (snd run)).
Proof.
  intros Hnone Hset run. unfold run. rewrite save_feed_items_run.
  destruct (save_fold_titleless data_source category_info content_items
              Hnone (w_ticks w) (mkSaveState (w_feed_items w) [] 0 0))
    as (created & Hfold & Hlen & Hall).
  - exact Hset.
  - intros row [].
  - exists created. cbv zeta. rewrite Hfold. simpl.
    repeat split; try assumption.
    apply titles_set_app; [exact Hset | now apply titles_set_untitled].
Qed.

(** *** Job orchestrator *)

(** What [get_data_source] does, by cases on the stored rows. *)
Lemma get_data_source_run (w : World) :
  get_data_source w
  = match find (fun d => String.eqb (ds_name d) "perplexity")
               (w_data_sources w) with
    | Some d => (Return (if ds_is_active d then Some d else None), w)
    | None =>
        let d := mkDataSource (fresh_data_source_id (w_data_sources w))
                   "perplexity" "Perplexity AI" perplexity_base_url 60
                   default_model default_is_active in
        (Return (if default_is_active then Some d else None),
         set_data_sources (w_data_sources w ++ [d]) w)
    end.
Proof.
  unfold get_data_source, bind, gets, modify, ret.
  destruct (find _ (w_data_sources w)); reflexivity.
Qed.

(** The lookup reads the data sources only. *)
Lemma get_data_source_session (n : nat) (w : World) :
  get_data_source (set_open_sessions n w)
  = (fst (get_data_source w), set_open_sessions n (snd (get_data_source w))).
Proof.
  rewrite !get_data_source_run. cbn [set_open_sessions w_data_sources].
  destruct (find _ (w_data_sources w)); reflexivity.
Qed.

Lemma get_data_source_frame (w : World) :
  let w' := snd (get_data_source w) in
  w_jobs w' = w_jobs w /\ w_progress w' = w_progress w
  /\ w_ticks w' = w_ticks w /\ w_open_sessions w' = w_open_sessions w
  /\ w_users w' = w_users w /\ w_user_categories w' = w_user_categories w.
Proof.
  rewrite get_data_source_run.
  destruct (find _ (w_data_sources w)); cbn; auto 10.
Qed.

(** [ingest_perplexity] through its program point. *)
Lemma ingest_perplexity_from_entry (user_id : option Z)
    (queries : option (list QueryInfo)) (w : World) :
  ingest_perplexity user_id queries w
  = match single_run_entry user_id queries w with
    | (Return None, w1) => (Return error_result, w1)
    | (Return (Some (data_source, queries, job)), w1) =>
        try_finally
          (try_except
             (totals <- run_queries data_source
                          (Z.of_nat (List.length queries)) 0 queries (0, 0)%Z ;;
              now <- utcnow ;;
              modify_job job (job_completed now (fst totals) (snd totals)) ;;;
              ret (single_run_result (fst totals) (snd totals)
                     (Z.of_nat (List.length queries)) user_id))
             (fail_and_retry job))
          close_session w1
    | (Raise e, w1) => (Raise e, w1)
    end.
Proof.
  unfold ingest_perplexity, single_run_entry, bind.
  destruct (open_session w) as [[[]|e] w0]; [|reflexivity].
  destruct (get_data_source w0) as [[[ds|]|e] w1]; reflexivity.
Qed.

Lemma fan_out_from_entry (w : World) :
  ingest_perplexity_for_all_users w
  = match fan_out_entry w with
    | (Return None, w1) => (Return error_result, w1)
    | (Return (Some (data_source, users, job)), w1) =>
        let total_users := Z.of_nat (List.length users) in
        try_finally
          (try_except
             (st <- run_users total_users users (mkFanOut 0 0 0) ;;
              now <- utcnow ;;
              modify_job job
                (job_completed now (total_created st) (total_updated st)) ;;;
              ret (fan_out_result st total_users))
             (fail_and_retry job))
          close_session w1
    | (Raise e, w1) => (Raise e, w1)
    end.
Proof.
  unfold ingest_perplexity_for_all_users, fan_out_entry, bind.
  destruct (open_session w) as [[[]|e] w0]; [|reflexivity].
  destruct (get_data_source w0) as [[[ds|]|e] w1]; reflexivity.
Qed.

(** The world at the loop of a single run: the job is the new last row,
    in state "running". *)
Lemma single_run_entry_job (user_id : option Z)
    (queries : option (list QueryInfo)) (w w1 : World) (ds : DataSource)
    (qs : list QueryInfo) (job : nat) :
  single_run_entry user_id queries w = (Return (Some (ds, qs, job)), w1) ->
  job = List.length (w_jobs w)
  /\ (exists j, w_jobs w1 = (w_jobs w ++ [j])%list
                /\ job_status j = "running" /\ job_type j = "perplexity")
  /\ w_open_sessions w1 = S (w_open_sessions w).
Proof.
  unfold single_run_entry, bind, open_session, modify.
  rewrite get_data_source_session.
  pose proof (get_data_source_frame w) as (Hjobs & _ & _ & Hsess & _).
  destruct (get_data_source w) as [[[d|]|e] w0]; cbn in *;
    try discriminate.
  intros [= <- <- <- <-]. cbn. rewrite Hjobs.
  split; [reflexivity|]. split; [|reflexivity]. eexists. eauto.
Qed.

Lemma fan_out_entry_job (w w1 : World) (ds : DataSource)
    (users : list UserDB) (job : nat) :
  fan_out_entry w = (Return (Some (ds, users, job)), w1) ->
  job = List.length (w_jobs w)
  /\ users = users_with_categories w
  /\ (exists j, w_jobs w1 = (w_jobs w ++ [j])%list
                /\ job_status j = "running"
                /\ job_type j = "perplexity_all_users")
  /\ w_open_sessions w1 = S (w_open_sessions w).
Proof.
  unfold fan_out_entry, bind, open_session, modify.
  rewrite get_data_source_session.
  pose proof (get_data_source_frame w) as (Hjobs & _ & _ & Hsess & Hu & Hc).
  destruct (get_data_source w) as [[[d|]|e] w0]; cbn in *;
    try discriminate.
  intros [= <- <- <- <-]. cbn. rewrite Hjobs.
  split; [reflexivity|]. split.
  - unfold users_with_categories. cbn. now rewrite Hu, Hc.
  - split; [|reflexivity]. eexists. eauto.
Qed.

(** C7.  When [get_data_source] yields no data source, both tasks return
    the error result at once: no job row is added, no progress is
    reported and the clock is not read. *)
Theorem missing_source_no_job (user_id : option Z)
    (queries : option (list QueryInfo)) (w : World) :
  fst (get_data_source w) = Return None ->
  let single := ingest_perplexity user_id queries w in
  let fan_out := ingest_perplexity_for_all_users w in
  (fst single = Return [("error", PStr "Data source not found")]
   /\ w_jobs (snd single) = w_jobs w
   /\ w_progress (snd single) = w_progress w
   /\ w_ticks (snd single) = w_ticks w)
  /\ (fst fan_out = Return [("error", PStr "Data source not found")]
      /\ w_jobs (snd fan_out) = w_jobs w
      /\ w_progress (snd fan_out) = w_progress w
      /\ w_ticks (snd fan_out) = w_ticks w).
Proof.
  intros Hnone single fan_out.
  pose proof (get_data_source_frame w) as (Hjobs & Hprog & Hticks & _).
  unfold single, fan_out, ingest_perplexity, ingest_perplexity_for_all_users,
    bind, open_session, modify.
  rewrite get_data_source_session.
  destruct (get_data_source w) as [r w0]. cbn in Hnone. subst r.
  cbn in *. auto 10.
Qed.

(** Frame rules: what leaves the job rows and the sessions alone. *)

Lemma preserves_ret {A B : Type} (f : World -> B) (a : A) :
  preserves f (ret a).
Proof. intros w. reflexivity. Qed.

Lemma preserves_raise {A B : Type} (f : World -> B) (e : exn) :
  preserves f (@raise A e).
Proof. intros w. reflexivity. Qed.

Lemma preserves_gets {A B : Type} (f : World -> B) (g : World -> A) :
  preserves f (gets g).
Proof. intros w. reflexivity. Qed.

Lemma preserves_modify {B : Type} (f : World -> B) (g : World -> World) :
  (forall w, f (g w) = f w) -> preserves f (modify g).
Proof. intros Hg w. apply Hg. Qed.

Lemma preserves_bind {A A' B : Type} (f : World -> B) (m : M A)
    (k : A -> M A') :
  preserves f m -> (forall a, preserves f (k a)) -> preserves f (bind m k).
Proof.
  intros Hm Hk w. unfold bind. specialize (Hm w).
  destruct (m w) as [[a|e] w1]; cbn in *; [|exact Hm].
  now rewrite Hk.
Qed.

Lemma preserves_utcnow : preserves job_view utcnow.
Proof. intros w. reflexivity. Qed.

Lemma preserves_update_state (meta : Progress) :
  preserves job_view (update_state meta).
Proof. intros w. reflexivity. Qed.

Create HintDb frame.
#[local] Hint Resolve preserves_utcnow preserves_update_state : frame.

(** One step: a rule of the data base, else a structural rule. *)
Ltac frame_step :=
  first
    [ solve [auto 1 with frame nocore]
    | apply preserves_ret
    | apply preserves_raise
    | apply preserves_gets
    | apply preserves_modify; intros; reflexivity
    | apply preserves_bind; [|intros ?]
    | match goal with
      | |- preserves _ (match ?x with _ => _ end) => destruct x
      end ].

Ltac frame := repeat frame_step.

Lemma preserves_query_perplexity (query model : string) :
  preserves job_view (query_perplexity query model).
Proof.
  unfold query_perplexity, create_cache_key, post_and_cache. frame.
Qed.

Lemma preserves_save_loop (ds : DataSource) (ci : option QueryDict)
    (items : list Item) :
  forall st, preserves job_view (save_loop ds ci items st).
Proof.
  induction items as [|item rest IH]; intros st; cbn [save_loop]; frame.
Qed.
#[local] Hint Resolve preserves_query_perplexity preserves_save_loop : frame.

Lemma preserves_save_feed_items (items : list Item) (ds : DataSource)
    (ci : option QueryDict) :
  preserves job_view (save_feed_items items ds ci).
Proof. unfold save_feed_items. frame. Qed.
#[local] Hint Resolve preserves_save_feed_items : frame.

Lemma preserves_run_queries (ds : DataSource) (total : Z)
    (queries : list QueryInfo) :
  forall i totals, preserves job_view (run_queries ds total i queries totals).
Proof.
  induction queries as [|q rest IH]; intros i totals; cbn [run_queries];
    frame.
Qed.

Lemma preserves_add_count (total : Z) (key : string) (d : pydict) :
  preserves job_view (add_count total key d).
Proof. unfold add_count. frame. Qed.

Lemma preserves_run_users (total_users : Z) (users : list UserDB) :
  forall st, preserves job_view (run_users total_users users st).
Proof.
  induction users as [|u rest IH]; intros st; cbn [run_users]; frame;
    apply preserves_add_count.
Qed.

Lemma nth_error_update_last {A : Type} (f : A -> A) (l : list A) (x : A) :
  nth_error (update_nth (List.length l) f (l ++ [x])) (List.length l)
  = Some (f x).
Proof. induction l as [|y l IH]; simpl; [reflexivity | exact IH]. Qed.

(** The [except] and [finally] blocks, run on a body that raised [e] and
    left the world [w2]. *)
Lemma failed_body_run (body : M pydict) (job : nat) (e : exn)
    (w1 w2 : World) :
  body w1 = (Raise e, w2) ->
  try_finally (try_except body (fail_and_retry job)) close_session w1
  = (Raise (Retry 60 3),
     set_open_sessions (pred (w_open_sessions w2))
       (set_jobs (update_nth job (job_failed (clock (w_ticks w2)) e)
                    (w_jobs w2))
          (set_ticks (S (w_ticks w2)) w2))).
Proof.
  intros Hbody. unfold try_finally, try_except. rewrite Hbody.
  reflexivity.
Qed.

(** C8.  When the loop over the queries of a single run raises, the task
    ends by raising the retry request with a delay of 60 seconds and at
    most 3 retries, and it leaves its job row with status "failed", the
    text of the exception as error message and a completion time. *)
Theorem failed_run_recorded_and_retried (user_id : option Z)
    (queries : option (list QueryInfo)) (w w_loop w_exc : World)
    (data_source : DataSource) (resolved : list QueryInfo) (job : nat)
    (e : exn) :
  single_run_entry user_id queries w
  = (Return (Some (data_source, resolved, job)), w_loop) ->
  run_queries data_source (Z.of_nat (List.length resolved)) 0 resolved
    (0, 0) w_loop
  = (Raise e, w_exc) ->
  exists j,
    fst (ingest_perplexity user_id queries w) = Raise (Retry 60 3)
    /\ nth_error (w_jobs (snd (ingest_perplexity user_id queries w))) job
       = Some j
    /\ job_type j = "perplexity"
    /\ job_status j = "failed"
    /\ job_error_message j = Some (exn_str e)
    /\ job_completed_at j = Some (clock (w_ticks w_exc)).
Proof.
  intros Hentry Hloop.
  destruct (single_run_entry_job _ _ _ _ _ _ _ Hentry)
    as (-> & (j0 & Hjobs & _ & Htype) & _).
  pose proof (preserves_run_queries data_source
                (Z.of_nat (List.length resolved)) resolved 0 (0, 0) w_loop)
    as Hframe.
  rewrite Hloop in Hframe. cbn in Hframe.
  injection Hframe as Hjobs' _.
  rewrite ingest_perplexity_from_entry, Hentry.
  erewrite failed_body_run by (unfold bind; now rewrite Hloop).
  cbn [fst snd w_jobs set_open_sessions set_jobs].
  rewrite Hjobs', Hjobs, nth_error_update_last.
  exists (job_failed (clock (w_ticks w_exc)) e j0). cbn.
  repeat split; trivial.
Qed.

(** A single run that got past the data source gives its session back,
    however it ends. *)
Lemma resolved_run_releases_session (user_id : option Z)
    (queries : option (list QueryInfo)) (w w_loop : World)
    (data_source : DataSource) (resolved : list QueryInfo) (job : nat) :
  single_run_entry user_id queries w
  = (Return (Some (data_source, resolved, job)), w_loop) ->
  w_open_sessions (snd (ingest_perplexity user_id queries w))
  = w_open_sessions w.
Proof.
  intros Hentry.
  destruct (single_run_entry_job _ _ _ _ _ _ _ Hentry) as (_ & _ & Hsess).
  rewrite ingest_perplexity_from_entry, Hentry.
  pose proof (preserves_run_queries data_source
                (Z.of_nat (List.length resolved)) resolved 0 (0, 0) w_loop)
    as Hframe.
  unfold try_finally, try_except, bind, fail_and_retry, bind.
  destruct (run_queries _ _ _ _ _ w_loop) as [[totals|e] w2];
    cbn in Hframe; injection Hframe as _ Hsess2; cbn;
    now rewrite Hsess2, Hsess.
Qed.

(** The fan-out loop raises as soon as it reaches a sub-run that timed
    out or failed; it may raise earlier. *)
Lemma run_users_raises (total_users : Z) (users : list UserDB) (u : UserDB) :
  In u users ->
  sub_run (u_id u) = SubTimedOut
  \/ (exists msg, sub_run (u_id u) = SubFailed msg) ->
  forall st w, exists e w', run_users total_users users st w = (Raise e, w').
Proof.
  intros Hin Hbad.
  induction users as [|v rest IH]; [contradiction|]. intros st w.
  cbn [run_users]. unfold bind at 1.
  destruct (update_state _ w) as [[[]|e0] w0] eqn:Hup;
    [|unfold update_state, modify in Hup; discriminate].
  destruct Hin as [-> | Hin].
  - unfold bind. destruct Hbad as [-> | [msg ->]]; cbn; eauto.
  - unfold bind at 1.
    destruct (sub_run (u_id v)) as [r| |msg]; cbn; eauto.
    unfold bind at 1.
    match goal with
    | |- context [match ?m w0 with _ => _ end] =>
        destruct (m w0) as [[st'|e1] w1]
    end; eauto.
Qed.

(** A fan-out whose loop raised [e]: the job row takes the text of [e]. *)
Lemma failed_fan_out_recorded (w w_loop w_exc : World)
    (data_source : DataSource) (users : list UserDB) (job : nat) (e : exn) :
  fan_out_entry w = (Return (Some (data_source, users, job)), w_loop) ->
  run_users (Z.of_nat (List.length users)) users (mkFanOut 0 0 0) w_loop
  = (Raise e, w_exc) ->
  fst (ingest_perplexity_for_all_users w) = Raise (Retry 60 3)
  /\ exists j,
       nth_error (w_jobs (snd (ingest_perplexity_for_all_users w))) job
       = Some j
       /\ job_type j = "perplexity_all_users"
       /\ job_status j = "failed"
       /\ job_error_message j = Some (exn_str e)
       /\ job_completed_at j = Some (clock (w_ticks w_exc)).
Proof.
  intros Hentry Hloop.
  destruct (fan_out_entry_job _ _ _ _ _ Hentry)
    as (-> & _ & (j0 & Hjobs & _ & Htype) & _).
  pose proof (preserves_run_users (Z.of_nat (List.length users)) users
                (mkFanOut 0 0 0) w_loop) as Hframe.
  rewrite Hloop in Hframe. cbn in Hframe. injection Hframe as Hjobs' _.
  rewrite fan_out_from_entry, Hentry. cbv zeta.
  erewrite failed_body_run by (unfold bind; now rewrite Hloop).
  cbn [fst snd w_jobs set_open_sessions set_jobs].
  rewrite Hjobs', Hjobs, nth_error_update_last.
  split; [reflexivity|].
  exists (job_failed (clock (w_ticks w_exc)) e j0). cbn.
  repeat split; trivial.
Qed.

(** C2, as amended.  (1) A fan-out that has a user whose sub-run timed
    out or failed ends by raising the retry request (60 seconds, at most
    3 retries) and leaves its job row with status "failed", the text of
    the exception its loop raised as error message, and a completion
    time.  (2) The same holds whenever the loop raises, whatever the
    exception.  (3) The loop raises at a user whose sub-run timed out
    (a timeout error), failed (the failure), or returned a result that
    has a key "created" but whose "created" or "updated" is not an
    integer (a type error) or that has no "updated" (a key error).
    (4) A sub-run that returns a result which is empty or has no key
    "created" is passed over: the counts and the number of processed
    users stay as they are and the loop goes on with the remaining
    users. *)
Theorem fan_out_sub_run_outcomes (w w_loop : World)
    (data_source : DataSource) (users : list UserDB) (job : nat) :
  fan_out_entry w = (Return (Some (data_source, users, job)), w_loop) ->
  (forall u,
      In u users ->
      sub_run (u_id u) = SubTimedOut
      \/ (exists msg, sub_run (u_id u) = SubFailed msg) ->
      exists j e w_exc,
        run_users (Z.of_nat (List.length users)) users (mkFanOut 0 0 0) w_loop
        = (Raise e, w_exc)
        /\ fst (ingest_perplexity_for_all_users w) = Raise (Retry 60 3)
        /\ nth_error (w_jobs (snd (ingest_perplexity_for_all_users w))) job
           = Some j
        /\ job_type j = "perplexity_all_users"
        /\ job_status j = "failed"
        /\ job_error_message j = Some (exn_str e)
        /\ job_completed_at j = Some (clock (w_ticks w_exc)))
  /\ (forall e w_exc,
        run_users (Z.of_nat (List.length users)) users (mkFanOut 0 0 0) w_loop
        = (Raise e, w_exc) ->
        fst (ingest_perplexity_for_all_users w) = Raise (Retry 60 3)
        /\ exists j,
             nth_error (w_jobs (snd (ingest_perplexity_for_all_users w))) job
             = Some j
             /\ job_type j = "perplexity_all_users"
             /\ job_status j = "failed"
             /\ job_error_message j = Some (exn_str e)
             /\ job_completed_at j = Some (clock (w_ticks w_exc)))
  /\ (forall total_users u rest st w0,
        let w1 :=
          snd (update_state
                 (UserProgress (u_username u) (users_processed st + 1)
                    total_users) w0) in
        (sub_run (u_id u) = SubTimedOut ->
         run_users total_users (u :: rest) st w0
         = (Raise (TimeoutError "The operation timed out."), w1))
        /\ (forall msg,
              sub_run (u_id u) = SubFailed msg ->
              run_users total_users (u :: rest) st w0
              = (Raise (OtherError msg), w1))
        /\ (forall r,
              sub_run (u_id u) = SubReturned r ->
              dict_get "created" r = Some PNone ->
              run_users total_users (u :: rest) st w0
              = (Raise (TypeError
                          "unsupported operand type(s) for +=: 'int' and 'NoneType'"),
                 w1))
        /\ (forall r text,
              sub_run (u_id u) = SubReturned r ->
              dict_get "created" r = Some (PStr text) ->
              run_users total_users (u :: rest) st w0
              = (Raise (TypeError
                          "unsupported operand type(s) for +=: 'int' and 'str'"),
                 w1))
        /\ (forall r c,
              sub_run (u_id u) = SubReturned r ->
              dict_get "created" r = Some (PInt c) ->
              dict_get "updated" r = None ->
              run_users total_users (u :: rest) st w0
              = (Raise (KeyError "updated"), w1))
        /\ (forall r c,
              sub_run (u_id u) = SubReturned r ->
              dict_get "created" r = Some (PInt c) ->
              dict_get "updated" r = Some PNone ->
              run_users total_users (u :: rest) st w0
              = (Raise (TypeError
                          "unsupported operand type(s) for +=: 'int' and 'NoneType'"),
                 w1))
        /\ (forall r c text,
              sub_run (u_id u) = SubReturned r ->
              dict_get "created" r = Some (PInt c) ->
              dict_get "updated" r = Some (PStr text) ->
              run_users total_users (u :: rest) st w0
              = (Raise (TypeError
                          "unsupported operand type(s) for +=: 'int' and 'str'"),
                 w1)))
  /\ (forall total_users u rest st w0 user_result,
        sub_run (u_id u) = SubReturned user_result ->
        user_result = [] \/ dict_get "created" user_result = None ->
        run_users total_users (u :: rest) st w0
        = run_users total_users rest st
            (snd (update_state
                    (UserProgress (u_username u) (users_processed st + 1)
                       total_users) w0))).
Proof.
  intros Hentry. split; [|split; [|split]].
  - intros u Hin Hbad.
    destruct (run_users_raises (Z.of_nat (List.length users)) users u Hin
                Hbad (mkFanOut 0 0 0) w_loop) as (e & w_exc & Hloop).
    destruct (failed_fan_out_recorded _ _ _ _ _ _ _ Hentry Hloop)
      as (Hretry & j & Hj).
    exists j, e, w_exc. auto.
  - intros e w_exc Hloop.
    exact (failed_fan_out_recorded _ _ _ _ _ _ _ Hentry Hloop).
  - intros total_users u rest st w0 w1. unfold w1.
    cbn [run_users]. unfold bind, update_state, modify, ret, raise.
    cbn [snd].
    repeat split.
    + intros ->. reflexivity.
    + intros msg ->. reflexivity.
    + intros r -> Hc. destruct r as [|entry others]; [discriminate|].
      rewrite Hc. unfold add_count, raise. now rewrite Hc.
    + intros r text -> Hc. destruct r as [|entry others]; [discriminate|].
      rewrite Hc. unfold add_count, raise. now rewrite Hc.
    + intros r c -> Hc Hu. destruct r as [|entry others]; [discriminate|].
      rewrite Hc. unfold add_count, ret, raise. rewrite Hc. cbv beta iota.
      now rewrite Hu.
    + intros r c -> Hc Hu. destruct r as [|entry others]; [discriminate|].
      rewrite Hc. unfold add_count, ret, raise. rewrite Hc. cbv beta iota.
      now rewrite Hu.
    + intros r c text -> Hc Hu. destruct r as [|entry others]; [discriminate|].
      rewrite Hc. unfold add_count, ret, raise. rewrite Hc. cbv beta iota.
      now rewrite Hu.
  - intros total_users u rest st w0 user_result Hsub Hunusable.
    cbn [run_users]. unfold bind, update_state, modify, ret. rewrite Hsub.
    destruct Hunusable as [-> | Hno]; [reflexivity|].
    destruct user_result as [|entry others]; [reflexivity|].
    rewrite Hno. reflexivity.
Qed.

(** *** More on the content extractor *)

Lemma lstrip_by_head (p : ascii -> bool) (s : string) (c : ascii) (r : string) :
  PyStr.lstrip_by p s = String c r -> p c = false.
Proof.
  induction s as [|a s IH]; simpl; [discriminate|].
  destruct (p a) eqn:Ea; [exact IH|].
  intros [= <- _]. exact Ea.
Qed.

Lemma rstrip_by_keeps_head (p : ascii -> bool) (c : ascii) (r : string) :
  p c = false -> exists r', PyStr.rstrip_by p (String c r) = String c r'.
Proof.
  intros Hc. simpl. destruct (PyStr.rstrip_by p r); [rewrite Hc|]; eauto.
Qed.

Lemma rstrip_by_last (p : ascii -> bool) (s : string) (c : ascii) :
  last_char (PyStr.rstrip_by p s) = Some c -> p c = false.
Proof.
  induction s as [|a s IH]; simpl; [discriminate|].
  destruct (PyStr.rstrip_by p s) as [|b r] eqn:E.
  - destruct (p a) eqn:Ea; simpl; [discriminate|].
    intros [= <-]. exact Ea.
  - intros H. apply IH. exact H.
Qed.

Lemma endswith_last_char (c : ascii) (s : string) :
  PyStr.endswith (String c EmptyString) s = true -> last_char s = Some c.
Proof.
  unfold PyStr.endswith. induction s as [|a s IH]; [discriminate|].
  destruct s as [|b r].
  - simpl. intros H.
    destruct (Ascii.eqb_spec a c) as [->|]; [reflexivity|].
    simpl in H. discriminate.
  - intros H. change (last_char (String a (String b r)))
      with (last_char (String b r)).
    apply IH.
    change (String.length (String a (String b r)))
      with (S (String.length (String b r))) in H.
    cbn [String.length] in *. cbn [Nat.leb Nat.sub] in *.
    rewrite Nat.sub_0_r in *. exact H.
Qed.

(** [s.strip(chars)] neither starts nor ends with a character of [chars]. *)
Lemma strip_chars_ends (c : ascii) (s : string) :
  let t := PyStr.strip_chars (String c EmptyString) s in
  PyStr.startswith (String c EmptyString) t = false
  /\ PyStr.endswith (String c EmptyString) t = false.
Proof.
  cbv zeta. unfold PyStr.strip_chars, PyStr.strip_by.
  set (p := fun x => existsb (Ascii.eqb x)
                       (list_ascii_of_string (String c EmptyString))).
  assert (Hp : p c = true).
  { unfold p. simpl. now rewrite Ascii.eqb_refl. }
  split.
  - destruct (PyStr.lstrip_by p s) as [|a r] eqn:E; [reflexivity|].
    pose proof (lstrip_by_head p s a r E) as Ha.
    destruct (rstrip_by_keeps_head p a r Ha) as (r' & ->).
    unfold PyStr.startswith. simpl.
    destruct (Ascii.ascii_dec c a) as [<-|Hne]; [congruence|].
    reflexivity.
  - destruct (PyStr.endswith (String c EmptyString)
                (PyStr.rstrip_by p (PyStr.lstrip_by p s))) eqn:E;
      [|reflexivity].
    apply endswith_last_char, rstrip_by_last in E. congruence.
Qed.

Lemma fold_left_keeps {A B : Type} (P : A -> Prop) (f : A -> B -> A)
    (l : list B) :
  (forall a b, P a -> P (f a b)) -> forall a, P a -> P (fold_left f l a).
Proof.
  intros Hstep. induction l as [|b l IH]; intros a Ha; simpl; auto.
Qed.

(** The invariant of the extraction loop. *)
Lemma fields_checked_empty : fields_checked empty_item.
Proof. repeat split; intros; discriminate. Qed.

Lemma extract_step_checked (st : list Item * Item) (raw : string) :
  Forall (fun i => item_nonempty i = true /\ fields_checked i) (fst st)
  /\ fields_checked (snd st) ->
  Forall (fun i => item_nonempty i = true /\ fields_checked i)
         (fst (extract_step st raw))
  /\ fields_checked (snd (extract_step st raw)).
Proof.
  destruct st as [items cur]. cbn [fst snd]. intros [Hitems Hcur].
  pose proof fields_checked_empty as Hempty.
  assert (Hflush : item_nonempty cur = true ->
                   Forall (fun i => item_nonempty i = true /\ fields_checked i)
                          (items ++ [cur])).
  { intros Hne. apply Forall_app. split; [exact Hitems|].
    constructor; [split; assumption | constructor]. }
  destruct Hcur as (Ht & Hu & Hs).
  unfold extract_step.
  destruct (String.eqb (PyStr.strip raw) "") eqn:Eblank.
  - destruct (item_nonempty cur) eqn:Ene; cbn [fst snd]; unfold fields_checked;
      auto.
  - destruct (PyStr.startswith "**" (PyStr.strip raw)
              && PyStr.endswith "**" (PyStr.strip raw))%bool eqn:Etitle.
    + cbn [fst snd]. split.
      * destruct (item_nonempty cur) eqn:Ene; auto.
      * unfold fields_checked. cbn [item_title item_url item_summary].
        split; [|split]; [|intros u [=] | intros s [=]].
        intros t [= <-]. apply (strip_chars_ends "*"%char).
    + destruct (PyStr.startswith "http" (PyStr.strip raw)) eqn:Eurl.
      * cbn [fst snd]. split; [exact Hitems|].
        unfold fields_checked. cbn [item_title item_url item_summary].
        split; [exact Ht | split; [|exact Hs]].
        intros u [= <-]. exact Eurl.
      * destruct (50 <? String.length (PyStr.strip raw))%nat eqn:Elong;
          cbn [fst snd]; [|unfold fields_checked; auto].
        split; [exact Hitems|].
        unfold fields_checked. cbn [item_title item_url item_summary].
        split; [exact Ht | split; [exact Hu|]].
        intros s [= <-]. split; [now apply Nat.ltb_lt | exact Eurl].
Qed.

(** X1.  Whatever the response, every item the extractor returns has at
    least one key; a title neither starts nor ends with an asterisk, a
    url starts with "http", and a summary is longer than 50 characters
    and does not start with "http". *)
Theorem extracted_items_checked (response : json) :
  Forall (fun i => item_nonempty i = true /\ fields_checked i)
         (extract_content_from_response response).
Proof.
  assert (Hlines : forall content,
             Forall (fun i => item_nonempty i = true /\ fields_checked i)
                    (extract_lines content)).
  { intros content. unfold extract_lines.
    pose proof (fold_left_keeps
                  (fun st =>
                     Forall (fun i => item_nonempty i = true /\ fields_checked i)
                            (fst st)
                     /\ fields_checked (snd st))
                  extract_step (PyStr.split PyStr.LF content)
                  extract_step_checked ([], empty_item)) as Hinv.
    destruct (fold_left extract_step _ _) as [items cur].
    destruct Hinv as [Hitems Hcur].
    { split; [constructor | exact fields_checked_empty]. }
    cbn [fst snd] in *.
    destruct (item_nonempty cur) eqn:Ene; [|exact Hitems].
    apply Forall_app. split; [exact Hitems|].
    constructor; [split; assumption | constructor]. }
  unfold extract_content_from_response.
  repeat match goal with
         | |- Forall _ [] => constructor
         | |- Forall _ (extract_lines _) => apply Hlines
         | |- Forall _ (match ?x with _ => _ end) => destruct x
         end.
Qed.

Lemma extract_step_held (st : list Item * Item) (raw : string) :
  (held_items (extract_step st raw)
   <= held_items st + (if nonblank raw then 1 else 0))%nat.
Proof.
  destruct st as [items cur]. unfold extract_step, nonblank, held_items.
  destruct (String.eqb (PyStr.strip raw) "") eqn:Eblank; cbn [negb].
  - destruct (item_nonempty cur) eqn:Ene; cbn [fst snd];
      rewrite ?length_app, ?Ene; simpl; lia.
  - destruct (_ && _)%bool.
    + cbn [fst snd]. destruct (item_nonempty cur);
        rewrite ?length_app; simpl; lia.
    + destruct (PyStr.startswith "http" (PyStr.strip raw)).
      * cbn [fst snd]. destruct (item_nonempty cur), (item_nonempty _); lia.
      * destruct (50 <? _)%nat; cbn [fst snd];
          destruct (item_nonempty cur); try destruct (item_nonempty _); lia.
Qed.

(** X2.  The extractor returns at most one item per line of the text that
    is not blank; a text of blank lines gives no item. *)
Theorem extracted_items_bounded (content : string) :
  (List.length (extract_lines content)
   <= List.length (filter nonblank (PyStr.split PyStr.LF content)))%nat.
Proof.
  unfold extract_lines.
  assert (Hfold : forall lines st,
             (held_items (fold_left extract_step lines st)
              <= held_items st + List.length (filter nonblank lines))%nat).
  { induction lines as [|raw lines IH]; intros st; simpl; [lia|].
    specialize (IH (extract_step st raw)).
    pose proof (extract_step_held st raw).
    destruct (nonblank raw); simpl; lia. }
  specialize (Hfold (PyStr.split PyStr.LF content) ([], empty_item)).
  destruct (fold_left extract_step _ _) as [items cur].
  unfold held_items in Hfold. cbn [fst snd] in Hfold.
  change (item_nonempty empty_item) with false in Hfold.
  destruct (item_nonempty cur); rewrite ?length_app; simpl in *; lia.
Qed.

(** *** More on the item upserter *)


Lemma Forall2_update_first {A : Type} (R : A -> A -> Prop) (p : A -> bool)
    (f : A -> A) (l l' : list A) :
  (forall a b, R a b -> R a (f b)) ->
  Forall2 R l l' -> Forall2 R l (update_first p f l').
Proof.
  intros Hf H. induction H as [|a b l l' Hab Htail IH]; simpl; [constructor|].
  destruct (p b); constructor; auto.
Qed.

Lemma Forall_update_first {A : Type} (P : A -> Prop) (p : A -> bool)
    (f : A -> A) (l : list A) :
  (forall x, P x -> P (f x)) -> Forall P l -> Forall P (update_first p f l).
Proof.
  intros Hf H. induction H as [|x l Hx Htail IH]; simpl; [constructor|].
  destruct (p x); constructor; auto.
Qed.

Lemma Forall2_refl {A : Type} (R : A -> A -> Prop) (l : list A) :
  (forall a, R a a) -> Forall2 R l l.
Proof. intros Hr. induction l; constructor; auto. Qed.




Lemma save_fold_rows (R : FeedItem -> FeedItem -> Prop) (P : FeedItem -> Prop)
    (ds : DataSource) (ci : option QueryDict) (rows0 : list FeedItem)
    (items : list Item) :
  (forall item now a b, In item items -> R a b ->
                        R a (update_feed_item item now b)) ->
  (forall item now b, P b -> P (update_feed_item item now b)) ->
  (forall item now, P (new_feed_item item ds ci now)) ->
  forall (tick : nat) (st : SaveState),
    Forall2 R rows0 (ss_rows st) -> Forall P (ss_pending st) ->
    Forall2 R rows0 (ss_rows (save_fold ds ci tick items st))
    /\ Forall P (ss_pending (save_fold ds ci tick items st)).
Proof.
  intros HR HP Hnew.
  induction items as [|item rest IH]; intros tick st Hrows Hpending;
    cbn [save_fold]; [auto|].
  apply IH.
  - intros i now a b Hin. apply HR. now right.
  - unfold save_step. destruct (existsb _ (ss_rows st)); cbn.
    + apply Forall2_update_first; [|exact Hrows].
      intros a b. apply HR. now left.
    + destruct (autoflush && _)%bool; exact Hrows.
  - unfold save_step. destruct (existsb _ (ss_rows st)); cbn; [exact Hpending|].
    destruct (autoflush && _)%bool; cbn.
    + apply Forall_update_first; [|exact Hpending]. intros x. apply HP.
    + apply Forall_app. split; [exact Hpending|]. constructor; [apply Hnew|constructor].
Qed.

Lemma same_identity_refl (row : FeedItem) : same_identity row row.
Proof. repeat split. Qed.

(** X5.  A save deletes no row and moves none: the table after it is the
    rows it found, each with the title, source label, data source,
    publication time, raw data, category and tags it had, followed by the
    rows it created, which all belong to the data source, have a title and
    carry the source label "Perplexity AI" and the category of the call. *)
Theorem save_keeps_stored_rows (content_items : list Item)
    (data_source : DataSource) (category_info : option QueryDict) (w : World) :
  exists kept created,
    w_feed_items
      (snd (save_feed_items content_items data_source category_info w))
    = (kept ++ created)%list
    /\ Forall2 same_identity (w_feed_items w) kept
    /\ Forall (fun row => fi_data_source_id row = ds_id data_source
                          /\ fi_title row <> None
                          /\ fi_source row = "Perplexity AI"
                          /\ fi_category row = category_name_of category_info)
              created.
Proof.
  rewrite save_feed_items_run. cbv zeta. cbn [snd w_feed_items set_feed_items].
  eexists _, _. split; [reflexivity|].
  apply (save_fold_rows same_identity _ data_source category_info
           (w_feed_items w) content_items).
  - intros item now a b _ Hab. unfold same_identity in *. cbn. exact Hab.
  - intros item now b Hb. cbn. exact Hb.
  - intros item now. cbn. repeat split. discriminate.
  - cbn. apply Forall2_refl, same_identity_refl.
  - constructor.
Qed.

(** X6.  Items that carry neither a summary nor a url overwrite nothing:
    every row the save found keeps its summary and its url (and all
    fields but the update time). *)
Theorem save_without_fields_keeps_text (content_items : list Item)
    (data_source : DataSource) (category_info : option QueryDict) (w : World) :
  Forall (fun i => item_summary i = None /\ item_url i = None) content_items ->
  exists kept created,
    w_feed_items
      (snd (save_feed_items content_items data_source category_info w))
    = (kept ++ created)%list
    /\ Forall2 touched_only (w_feed_items w) kept.
Proof.
  intros Hbare.
  rewrite save_feed_items_run. cbv zeta. cbn [snd w_feed_items set_feed_items].
  eexists _, _. split; [reflexivity|].
  apply (save_fold_rows touched_only (fun _ => True) data_source category_info
           (w_feed_items w) content_items); trivial.
  - intros item now a b Hin Hab. rewrite Forall_forall in Hbare.
    destruct (Hbare item Hin) as [Hs Hu].
    unfold touched_only, same_identity in *. cbn. rewrite Hs, Hu. cbn.
    exact Hab.
  - cbn. apply Forall2_refl. intros a. split; [apply same_identity_refl|auto].
Qed.


(** *** API client *)

(** A call that finds a usable cached payload. *)
Lemma query_perplexity_hit_run (query model : string) (w : World) (r : json) :
  api_key_missing = false ->
  get_cached_response (w_content_cache w)
    (cache_key_at query model (clock (w_ticks w))) (clock (S (w_ticks w)))
  = Some r ->
  truthy r = true ->
  query_perplexity query model w
  = (Return (Some r), set_ticks (S (S (w_ticks w))) w).
Proof.
  intros Hkey Hget Htruthy.
  unfold query_perplexity, create_cache_key, bind, utcnow, gets, ret.
  rewrite Hkey. cbn [w_ticks w_content_cache set_ticks].
  rewrite Hget. cbn [option_truthy]. rewrite Htruthy.
  destruct w; reflexivity.
Qed.

(** A call that finds no usable cached payload and gets an answer. *)
Lemma query_perplexity_fetch_run (query model : string) (w : World)
    (result : json) :
  api_key_missing = false ->
  option_truthy
    (get_cached_response (w_content_cache w)
       (cache_key_at query model (clock (w_ticks w))) (clock (S (w_ticks w))))
  = false ->
  http_post query model = HttpOk result ->
  query_perplexity query model w
  = (Return (Some result),
     set_content_cache
       (w_content_cache w
        ++ [mkContentCache (cache_key_at query model (clock (w_ticks w)))
              "perplexity" result
              (clock (S (S (w_ticks w))) + 24 * microseconds_per_hour)])
       (set_ticks (S (S (S (w_ticks w)))) w)).
Proof.
  intros Hkey Hmiss Hpost.
  unfold query_perplexity, create_cache_key, post_and_cache, bind, utcnow,
    gets, modify, ret.
  rewrite Hkey. cbn [w_ticks w_content_cache set_ticks].
  rewrite Hmiss, Hpost. cbn [w_ticks w_content_cache set_ticks].
  destruct w; reflexivity.
Qed.

(** X7.  With a credential and an unexpired, non-empty cached payload
    under the key of the query, the client returns that payload; it reads
    the clock twice and writes nothing to the store, whatever the provider
    would answer. *)
Theorem cache_hit_returned (query model : string) (w : World) (r : json) :
  api_key_missing = false ->
  get_cached_response (w_content_cache w)
    (cache_key_at query model (clock (w_ticks w))) (clock (S (w_ticks w)))
  = Some r ->
  truthy r = true ->
  let run := query_perplexity query model w in
  fst run = Return (Some r)
  /\ w_content_cache (snd run) = w_content_cache w
  /\ w_feed_items (snd run) = w_feed_items w
  /\ w_ticks (snd run) = S (S (w_ticks w)).
Proof.
  intros Hkey Hget Htruthy run. unfold run.
  rewrite (query_perplexity_hit_run query model w r) by assumption.
  repeat split.
Qed.

Lemma api_key_missing_spelled :
  (api_key_missing = true <-> api_key = None \/ api_key = Some "")
  /\ (api_key_missing = false <-> exists k, api_key = Some k /\ k <> "").
Proof.
  unfold api_key_missing. destruct api_key as [k|].
  - destruct (String.eqb_spec k "") as [->|Hk]; split; split;
      try discriminate; try tauto.
    + intros (k' & [= <-] & Hk'). congruence.
    + intros [[=] | [= ->]]. congruence.
    + intros _. eauto.
  - split; split; try discriminate; try tauto.
    intros (k & [=] & _).
Qed.

(** X9.  The client writes a cache row exactly when it asked the provider
    and the provider answered.  With a credential and no usable cached
    payload, an answer is returned and appended as one row under the key
    of the query, labelled "perplexity" and expiring 24 hours after the
    third clock reading of the call.  In every other case (no credential,
    a usable cached payload, a request error, another error) the cache is
    left as it was; a request error returns nothing and another error is
    raised. *)
Theorem cache_written_when_answered (query model : string) (w : World) :
  let run := query_perplexity query model w in
  let key := cache_key_at query model (clock (w_ticks w)) in
  let cached :=
    get_cached_response (w_content_cache w) key (clock (S (w_ticks w))) in
  (forall result,
      (exists k, api_key = Some k /\ k <> "") ->
      option_truthy cached = false ->
      http_post query model = HttpOk result ->
      fst run = Return (Some result)
      /\ w_content_cache (snd run)
         = (w_content_cache w
            ++ [mkContentCache key "perplexity" result
                  (clock (S (S (w_ticks w))) + 86400000000)])%list)
  /\ (api_key = None \/ api_key = Some ""
      \/ option_truthy cached = true
      \/ http_post query model = HttpRequestException
      \/ (exists msg, http_post query model = HttpOtherError msg) ->
      w_content_cache (snd run) = w_content_cache w)
  /\ ((exists k, api_key = Some k /\ k <> "") ->
      option_truthy cached = false ->
      (http_post query model = HttpRequestException -> fst run = Return None)
      /\ (forall msg, http_post query model = HttpOtherError msg ->
                      fst run = Raise (OtherError msg))).
Proof.
  cbv zeta. destruct api_key_missing_spelled as [Hmissing Hpresent].
  unfold query_perplexity, create_cache_key, post_and_cache, bind, utcnow,
    gets, modify, ret, raise.
  cbn [w_ticks w_content_cache set_ticks].
  split; [|split].
  - intros result Hkey Hmiss Hpost. apply Hpresent in Hkey.
    rewrite Hkey, Hmiss, Hpost. split; reflexivity.
  - intros Hcase.
    destruct api_key_missing eqn:Hkey; [reflexivity|].
    destruct (option_truthy _) eqn:Hhit; [reflexivity|].
    destruct Hcase as [Hnone | [Hempty | [Htrue | [Herr | [msg Herr]]]]].
    + assert (false = true) by (apply Hmissing; auto). discriminate.
    + assert (false = true) by (apply Hmissing; auto). discriminate.
    + discriminate.
    + rewrite Herr. reflexivity.
    + rewrite Herr. reflexivity.
  - intros Hkey Hmiss. apply Hpresent in Hkey. rewrite Hkey, Hmiss.
    split; [intros ->; reflexivity | intros msg ->; reflexivity].
Qed.

Lemma find_none_weaker {A : Type} (p q : A -> bool) (l : list A) :
  (forall x, q x = true -> p x = true) ->
  find p l = None -> find q l = None.
Proof.
  intros Hpq. induction l as [|x l IH]; simpl; [reflexivity|].
  destruct (p x) eqn:Ep; [discriminate|].
  destruct (q x) eqn:Eq; [|exact IH].
  apply Hpq in Eq. congruence.
Qed.

(** A row that passes the filter at a later time passes it earlier. *)
Lemma cache_entry_matches_earlier (key : string) (t t' : Z) (e : ContentCache) :
  t <= t' -> cache_entry_matches key t' e = true ->
  cache_entry_matches key t e = true.
Proof.
  unfold cache_entry_matches. intros Hle H.
  apply andb_prop in H. destruct H as [Hkd Hlive].
  rewrite Hkd. apply Z.ltb_lt in Hlive. apply Z.ltb_lt. lia.
Qed.


(** *** More on the job orchestrator *)

Lemma bind_return_inv {A B : Type} (m : M A) (k : A -> M B) (w w' : World)
    (b : B) :
  bind m k w = (Return b, w') ->
  exists a w1, m w = (Return a, w1) /\ k a w1 = (Return b, w').
Proof.
  unfold bind. destruct (m w) as [[a|e] w1]; [eauto | discriminate].
Qed.

Lemma update_nth_last {A : Type} (f : A -> A) (l : list A) (x : A) :
  update_nth (List.length l) f (l ++ [x]) = (l ++ [f x])%list.
Proof. induction l as [|y l IH]; simpl; [reflexivity | now rewrite IH]. Qed.

Lemma get_data_source_store (w : World) :
  let w' := snd (get_data_source w) in
  w_feed_items w' = w_feed_items w /\ w_content_cache w' = w_content_cache w.
Proof.
  rewrite get_data_source_run.
  destruct (find _ (w_data_sources w)); cbn; auto.
Qed.

(** The world at the loop of a single run, in full. *)
Lemma single_run_entry_row (user_id : option Z)
    (queries : option (list QueryInfo)) (w w1 : World) (ds : DataSource)
    (qs : list QueryInfo) (job : nat) :
  single_run_entry user_id queries w = (Return (Some (ds, qs, job)), w1) ->
  job = List.length (w_jobs w)
  /\ qs = resolve_queries (w_user_categories w) user_id queries
  /\ w_jobs w1
     = (w_jobs w
        ++ [mkIngestionJob "perplexity" "running" (clock (w_ticks w)) None
              (SingleRunParameters user_id (map query_snapshot qs))
              (ds_id ds) None None None])%list
  /\ w_feed_items w1 = w_feed_items w
  /\ w_content_cache w1 = w_content_cache w
  /\ w_progress w1 = w_progress w.
Proof.
  unfold single_run_entry, bind, open_session, modify.
  rewrite get_data_source_session.
  pose proof (get_data_source_frame w) as (Hjobs & Hprog & Hticks & _ & _ & Hc).
  pose proof (get_data_source_store w) as (Hfeed & Hcache).
  destruct (get_data_source w) as [[[d|]|e] w0]; cbn in *;
    try discriminate.
  intros [= <- <- <- <-]. cbn. rewrite Hjobs, Hticks, Hc.
  auto 10.
Qed.

Lemma fan_out_entry_row (w w1 : World) (ds : DataSource)
    (users : list UserDB) (job : nat) :
  fan_out_entry w = (Return (Some (ds, users, job)), w1) ->
  job = List.length (w_jobs w)
  /\ users = users_with_categories w
  /\ w_jobs w1
     = (w_jobs w
        ++ [mkIngestionJob "perplexity_all_users" "running"
              (clock (w_ticks w)) None
              (AllUsersParameters (Z.of_nat (List.length users)))
              (ds_id ds) None None None])%list.
Proof.
  intros Hentry.
  destruct (fan_out_entry_job _ _ _ _ _ Hentry) as (Hjob & Husers & _).
  revert Hentry.
  unfold fan_out_entry, bind, open_session, modify.
  rewrite get_data_source_session.
  pose proof (get_data_source_frame w) as (Hjobs & _ & Hticks & _).
  destruct (get_data_source w) as [[[d|]|e] w0]; cbn in *;
    try discriminate.
  intros [= <- Hu <- <-]. cbn. rewrite Hjobs, Hticks, Hu. auto.
Qed.

(** The [try] body, the skipped [except] and the [finally], on a loop that
    returned [a] and left the world [w2]. *)
Lemma completed_body_run {A : Type} (loop : M A) (job : nat)
    (created updated : A -> Z) (result : A -> pydict) (a : A)
    (w1 w2 : World) :
  loop w1 = (Return a, w2) ->
  try_finally
    (try_except
       (bind loop (fun x =>
          bind utcnow (fun now =>
            bind (modify_job job (job_completed now (created x) (updated x)))
              (fun _ => ret (result x)))))
       (fail_and_retry job))
    close_session w1
  = (Return (result a),
     set_open_sessions (pred (w_open_sessions w2))
       (set_jobs
          (update_nth job
             (job_completed (clock (w_ticks w2)) (created a) (updated a))
             (w_jobs w2))
          (set_ticks (S (w_ticks w2)) w2))).
Proof.
  intros Hloop. unfold try_finally, try_except, bind. rewrite Hloop.
  reflexivity.
Qed.

(** A loop that returns has met a text in every query. *)
Lemma run_queries_return_texts (data_source : DataSource) (total : Z)
    (queries : list QueryInfo) :
  forall (i : Z) (totals result : Z * Z) (w w' : World),
    run_queries data_source total i queries totals w = (Return result, w') ->
    exists texts,
      map query_text queries = map Some texts
      /\ map query_snapshot queries = map QStr texts.
Proof.
  induction queries as [|q rest IH]; intros i totals result w w' Hrun.
  - exists []. split; reflexivity.
  - cbn [run_queries] in Hrun.
    apply bind_return_inv in Hrun as (qc & w0 & Hqc & Hrun).
    assert (Hq : exists text, query_text q = Some text
                              /\ query_snapshot q = QStr text).
    { destruct q as [d|s]; cbn in *.
      - destruct (qd_query d) as [text|]; [eauto | discriminate].
      - eauto. }
    destruct Hq as (text & Htext & Hsnap).
    destruct qc as [query category_info].
    apply bind_return_inv in Hrun as ([] & w1 & _ & Hrun).
    apply bind_return_inv in Hrun as (response & w2 & _ & Hrun).
    apply bind_return_inv in Hrun as (totals' & w3 & _ & Hrun).
    destruct (IH _ _ _ _ _ Hrun) as (texts & Htexts & Hsnaps).
    exists (text :: texts). cbn [map].
    now rewrite Htext, Hsnap, Htexts, Hsnaps.
Qed.

(** X10.  A single run whose loop returns ends with the result dict
    {status: "completed", created, updated, queries_processed, user_id}
    of the totals and the number of queries, and with exactly one more
    job row: the rows it found are as they were, and its own row is
    "completed", with the user id and the texts of the queries as
    parameters, the start and completion times, the totals as items
    created and updated, and no error message. *)
Theorem completed_run_recorded (user_id : option Z)
    (queries : option (list QueryInfo)) (w w_loop w_end : World)
    (data_source : DataSource) (resolved : list QueryInfo) (job : nat)
    (totals : Z * Z) :
  single_run_entry user_id queries w
  = (Return (Some (data_source, resolved, job)), w_loop) ->
  run_queries data_source (Z.of_nat (List.length resolved)) 0 resolved (0, 0)
    w_loop
  = (Return totals, w_end) ->
  fst (ingest_perplexity user_id queries w)
  = Return [ ("status", PStr "completed");
             ("created", PInt (fst totals));
             ("updated", PInt (snd totals));
             ("queries_processed", PInt (Z.of_nat (List.length resolved)));
             ("user_id", match user_id with
                         | Some n => PInt n
                         | None => PNone
                         end) ]
  /\ exists texts,
       map query_text resolved = map Some texts
       /\ w_jobs (snd (ingest_perplexity user_id queries w))
          = (w_jobs w
             ++ [mkIngestionJob "perplexity" "completed" (clock (w_ticks w))
                   (Some (clock (w_ticks w_end)))
                   (SingleRunParameters user_id (map QStr texts))
                   (ds_id data_source) (Some (fst totals))
                   (Some (snd totals)) None])%list.
Proof.
  intros Hentry Hloop.
  destruct (single_run_entry_row _ _ _ _ _ _ _ Hentry)
    as (-> & _ & Hjobs & _).
  destruct (run_queries_return_texts _ _ _ _ _ _ _ _ Hloop)
    as (texts & Htexts & Hsnaps).
  pose proof (preserves_run_queries data_source
                (Z.of_nat (List.length resolved)) resolved 0 (0, 0) w_loop)
    as Hframe.
  rewrite Hloop in Hframe. cbn in Hframe. injection Hframe as Hjobs' _.
  rewrite ingest_perplexity_from_entry, Hentry.
  rewrite (completed_body_run _ _ fst snd
             (fun t => single_run_result (fst t) (snd t)
                         (Z.of_nat (List.length resolved)) user_id)
             totals w_loop w_end Hloop).
  cbn [fst snd w_jobs set_open_sessions set_jobs].
  rewrite Hjobs', Hjobs, update_nth_last, Hsnaps.
  split; [destruct user_id; reflexivity|].
  exists texts. split; [exact Htexts | reflexivity].
Qed.

(** X11.  A single run that got past the data source adds exactly one job
    row and never leaves it "running": the rows it found are as they
    were, and its own row ends "completed" or "failed", with a completion
    time in both cases. *)
Theorem run_adds_one_terminal_job (user_id : option Z)
    (queries : option (list QueryInfo)) (w w_loop : World)
    (data_source : DataSource) (resolved : list QueryInfo) (job : nat) :
  single_run_entry user_id queries w
  = (Return (Some (data_source, resolved, job)), w_loop) ->
  exists j,
    w_jobs (snd (ingest_perplexity user_id queries w)) = (w_jobs w ++ [j])%list
    /\ job_type j = "perplexity"
    /\ (job_status j = "completed" \/ job_status j = "failed")
    /\ job_completed_at j <> None.
Proof.
  intros Hentry.
  destruct (single_run_entry_row _ _ _ _ _ _ _ Hentry)
    as (-> & _ & Hjobs & _).
  pose proof (preserves_run_queries data_source
                (Z.of_nat (List.length resolved)) resolved 0 (0, 0) w_loop)
    as Hframe.
  rewrite ingest_perplexity_from_entry, Hentry.
  destruct (run_queries data_source _ 0 resolved (0, 0) w_loop)
    as [[totals|e] w_end] eqn:Hloop;
    cbn in Hframe; injection Hframe as Hjobs' _.
  - rewrite (completed_body_run _ _ fst snd
               (fun t => single_run_result (fst t) (snd t)
                           (Z.of_nat (List.length resolved)) user_id)
               totals w_loop w_end Hloop).
    cbn [fst snd w_jobs set_open_sessions set_jobs].
    rewrite Hjobs', Hjobs, update_nth_last.
    eexists. split; [reflexivity|]. cbn. repeat split; auto. discriminate.
  - erewrite failed_body_run by (unfold bind; now rewrite Hloop).
    cbn [fst snd w_jobs set_open_sessions set_jobs].
    rewrite Hjobs', Hjobs, update_nth_last.
    eexists. split; [reflexivity|]. cbn. repeat split; auto. discriminate.
Qed.


Lemma progress_query_perplexity (query model : string) :
  preserves w_progress (query_perplexity query model).
Proof.
  intros w.
  unfold query_perplexity, create_cache_key, post_and_cache, bind, utcnow,
    gets, modify, ret, raise.
  destruct api_key_missing; [reflexivity|].
  cbn [w_ticks w_content_cache set_ticks].
  destruct (option_truthy _); [reflexivity|].
  destruct (http_post query model); reflexivity.
Qed.

Lemma progress_save_feed_items (items : list Item) (ds : DataSource)
    (ci : option QueryDict) :
  preserves w_progress (save_feed_items items ds ci).
Proof. intros w. rewrite save_feed_items_run. reflexivity. Qed.

(** X12.  A loop over the queries that returns has reported one progress
    event per query, in the order of the queries: the event of the k-th
    query (from 0, the loop starting at index [i]) carries the text of the
    query, the position [i + k + 1], the total it was given and the
    category label of the query. *)
Theorem progress_event_per_query (data_source : DataSource) (total : Z)
    (queries : list QueryInfo) :
  forall (i : Z) (totals result : Z * Z) (w w' : World),
    run_queries data_source total i queries totals w = (Return result, w') ->
    exists events,
      w_progress w' = (w_progress w ++ events)%list
      /\ List.length events = List.length queries
      /\ forall k q,
           nth_error queries k = Some q ->
           exists text,
             query_text q = Some text
             /\ nth_error events k
                = Some (QueryProgress text (i + Z.of_nat k + 1) total
                          (query_category q)).
Proof.
  induction queries as [|q rest IH]; intros i totals result w w' Hrun.
  - cbn in Hrun. injection Hrun as _ <-. exists [].
    rewrite app_nil_r. repeat split. intros [|k] q [=].
  - cbn [run_queries] in Hrun.
    apply bind_return_inv in Hrun as (qc & w0 & Hqc & Hrun).
    assert (Hq : w0 = w /\ exists text,
                 query_text q = Some text
                 /\ qc = (text, match q with
                                | QDict d => d
                                | QStr _ => general_info
                                end)).
    { destruct q as [d|s]; cbn in *.
      - destruct (qd_query d); [|discriminate].
        injection Hqc as <- <-. eauto.
      - injection Hqc as <- <-. eauto. }
    destruct Hq as (-> & text & Htext & ->). clear Hqc.
    cbv beta iota in Hrun.
    apply bind_return_inv in Hrun as ([] & w1 & Hup & Hrun).
    apply bind_return_inv in Hrun as (response & w2 & Hqp & Hrun).
    apply bind_return_inv in Hrun as (totals' & w3 & Hsave & Hrun).
    unfold update_state, modify in Hup. injection Hup as <-.
    assert (Hp2 : w_progress w2
                  = (w_progress w
                     ++ [QueryProgress text (i + 1) total
                           (query_category q)])%list).
    { match type of Hqp with
      | _ _ _ ?w1 = _ =>
          pose proof (progress_query_perplexity text default_model w1) as Hm;
          rewrite Hqp in Hm; cbn [snd] in Hm; rewrite Hm
      end.
      cbn [w_progress set_progress]. destruct q; reflexivity. }
    assert (Hp3 : w_progress w3 = w_progress w2).
    { destruct response as [r|]; [destruct (truthy r)|].
      - apply bind_return_inv in Hsave as (results & w2' & Hs & Hret).
        unfold ret in Hret. injection Hret as _ <-.
        match type of Hs with
        | save_feed_items ?items ?ds ?ci w2 = _ =>
            pose proof (progress_save_feed_items items ds ci w2) as Hm
        end.
        rewrite Hs in Hm. exact Hm.
      - unfold ret in Hsave. injection Hsave as _ <-. reflexivity.
      - unfold ret in Hsave. injection Hsave as _ <-. reflexivity. }
    destruct (IH _ _ _ _ _ Hrun) as (events & Hev & Hlen & Hnth).
    eexists (_ :: events). split; [|split].
    + rewrite Hev, Hp3, Hp2, <- app_assoc. reflexivity.
    + cbn. now rewrite Hlen.
    + intros [|k] q' Hq'; cbn in Hq'.
      * injection Hq' as <-. exists text. split; [exact Htext|].
        cbn. do 2 f_equal. lia.
      * destruct (Hnth k q' Hq') as (text' & Ht' & Hk).
        exists text'. split; [exact Ht'|]. cbn [nth_error]. rewrite Hk.
        do 2 f_equal. lia.
Qed.

(** Without a credential every query is passed over. *)
Lemma run_queries_without_key (data_source : DataSource) (total : Z)
    (queries : list QueryInfo) :
  api_key_missing = true ->
  Forall (fun q => query_text q <> None) queries ->
  forall (i : Z) (totals : Z * Z) (w : World),
    exists w',
      run_queries data_source total i queries totals w = (Return totals, w')
      /\ store_view w' = store_view w
      /\ job_view w' = job_view w
      /\ w_ticks w' = w_ticks w.
Proof.
  intros Hmissing Htexts.
  induction Htexts as [|q rest Hq _ IH]; intros i totals w.
  - exists w. repeat split.
  - cbn [run_queries].
    destruct q as [d|s]; cbn in Hq;
      [destruct (qd_query d) as [text|]; [|congruence]|];
      unfold bind, ret, update_state, modify, query_perplexity;
      rewrite Hmissing; unfold ret;
      match goal with
      | |- exists w', run_queries _ _ ?i' _ _ ?w1 = _ /\ _ =>
          destruct (IH i' totals w1) as (w' & Hrun & Hstore & Hjob & Hticks)
      end;
      exists w'; rewrite Hrun; repeat split; assumption.
Qed.

Lemma resolve_queries_have_text (categories : list UserCategory)
    (user_id : option Z) :
  Forall (fun q => query_text q <> None)
         (resolve_queries categories user_id None).
Proof.
  assert (Hfallback : Forall (fun q => query_text q <> None)
                             (map QDict generate_fallback_queries)).
  { repeat constructor; discriminate. }
  unfold resolve_queries.
  destruct user_id as [uid|]; [|exact Hfallback].
  destruct (user_id_given (Some uid)); [|exact Hfallback].
  destruct (get_user_categories categories uid) as [|c cs];
    [exact Hfallback|].
  apply Forall_forall. intros q Hin.
  apply in_map_iff in Hin. destruct Hin as (d & <- & Hin).
  apply in_map_iff in Hin. destruct Hin as (c' & <- & _).
  cbn. unfold query_for_category.
  destruct (match uc_keywords c' with Some ks => ks | None => [] end);
    discriminate.
Qed.

(** X13.  Without a credential (the variable unset, or set to the empty
    string) a single run with derived queries still completes: no query
    reaches the provider, the result reports 0 created and 0 updated
    over all the queries, and the feed items and the cache are as they
    were. *)
Theorem run_without_credential (user_id : option Z) (w w_loop : World)
    (data_source : DataSource) (resolved : list QueryInfo) (job : nat) :
  api_key = None \/ api_key = Some "" ->
  single_run_entry user_id None w
  = (Return (Some (data_source, resolved, job)), w_loop) ->
  let run := ingest_perplexity user_id None w in
  fst run
  = Return [ ("status", PStr "completed");
             ("created", PInt 0);
             ("updated", PInt 0);
             ("queries_processed", PInt (Z.of_nat (List.length resolved)));
             ("user_id", match user_id with
                         | Some n => PInt n
                         | None => PNone
                         end) ]
  /\ w_feed_items (snd run) = w_feed_items w
  /\ w_content_cache (snd run) = w_content_cache w.
Proof.
  intros Hkey Hentry run. unfold run.
  assert (Hmissing : api_key_missing = true).
  { unfold api_key_missing. destruct Hkey as [-> | ->]; reflexivity. }
  destruct (single_run_entry_row _ _ _ _ _ _ _ Hentry)
    as (_ & Hqs & _ & Hfeed & Hcache & _).
  destruct (run_queries_without_key data_source
              (Z.of_nat (List.length resolved)) resolved Hmissing
              ltac:(rewrite Hqs; apply resolve_queries_have_text)
              0 (0, 0) w_loop)
    as (w_end & Hloop & Hstore & _).
  injection Hstore as Hfeed' Hcache'.
  rewrite ingest_perplexity_from_entry, Hentry.
  rewrite (completed_body_run _ _ fst snd
             (fun t => single_run_result (fst t) (snd t)
                         (Z.of_nat (List.length resolved)) user_id)
             (0, 0) w_loop w_end Hloop).
  cbn. rewrite Hfeed', Hcache', Hfeed, Hcache.
  split; [destruct user_id; reflexivity | auto].
Qed.

Lemma resolved_fan_out_releases_session (w w_loop : World)
    (data_source : DataSource) (users : list UserDB) (job : nat) :
  fan_out_entry w = (Return (Some (data_source, users, job)), w_loop) ->
  w_open_sessions (snd (ingest_perplexity_for_all_users w))
  = w_open_sessions w.
Proof.
  intros Hentry.
  destruct (fan_out_entry_job _ _ _ _ _ Hentry) as (_ & _ & _ & Hsess).
  rewrite fan_out_from_entry, Hentry.
  pose proof (preserves_run_users (Z.of_nat (List.length users)) users
                (mkFanOut 0 0 0) w_loop) as Hframe.
  cbv zeta.
  unfold try_finally, try_except, bind, fail_and_retry, bind.
  destruct (run_users _ _ _ w_loop) as [[st|e] w2];
    cbn in Hframe; injection Hframe as _ Hsess2; cbn;
    now rewrite Hsess2, Hsess.
Qed.

(** X14.  Past the data source lookup both tasks give back the session
    they opened, whether they return or raise the retry request: the
    number of open sessions after the task is the number before it. *)
Theorem resolved_tasks_release_session (user_id : option Z)
    (queries : option (list QueryInfo)) (w : World) :
  (forall data_source resolved job w_loop,
      single_run_entry user_id queries w
      = (Return (Some (data_source, resolved, job)), w_loop) ->
      w_open_sessions (snd (ingest_perplexity user_id queries w))
      = w_open_sessions w)
  /\ (forall data_source users job w_loop,
        fan_out_entry w = (Return (Some (data_source, users, job)), w_loop) ->
        w_open_sessions (snd (ingest_perplexity_for_all_users w))
        = w_open_sessions w).
Proof.
  split.
  - intros ds resolved job w_loop. apply resolved_run_releases_session.
  - intros ds users job w_loop. apply resolved_fan_out_releases_session.
Qed.

(** The fan-out loop over sub-runs that all report integer counts. *)
Lemma run_users_sums (total_users : Z) (users : list UserDB) :
  (forall u, In u users ->
             exists r c up,
               sub_run (u_id u) = SubReturned r
               /\ dict_get "created" r = Some (PInt c)
               /\ dict_get "updated" r = Some (PInt up)) ->
  forall (st : FanOut) (w : World),
    exists w',
      run_users total_users users st w
      = (Return (mkFanOut (total_created st + sum_reported "created" users)
                   (total_updated st + sum_reported "updated" users)
                   (users_processed st + Z.of_nat (List.length users))),
         w')
      /\ job_view w' = job_view w.
Proof.
  induction users as [|u rest IH]; intros Hall st w.
  - exists w. destruct st. cbn. rewrite !Z.add_0_r. auto.
  - destruct (Hall u (or_introl eq_refl)) as (r & c & up & Hsub & Hc & Hu).
    cbn [run_users]. unfold bind at 1. unfold update_state, modify.
    unfold bind at 1. rewrite Hsub. unfold ret at 1.
    destruct r as [|entry others]; [discriminate|].
    unfold bind at 1. rewrite Hc.
    unfold add_count, bind, ret. rewrite Hc. cbv beta iota. rewrite Hu.
    cbv beta iota.
    match goal with
    | |- exists w', run_users _ _ ?st1 ?w1 = _ /\ _ =>
        destruct (IH (fun v Hv => Hall v (or_intror Hv)) st1 w1)
          as (w' & Hrun & Hview)
    end.
    exists w'. rewrite Hrun. split; [|exact Hview].
    unfold sum_reported. cbn [map fold_right List.length total_created
                                total_updated users_processed].
    assert (Hrc : reported "created" u = c)
      by (unfold reported; now rewrite Hsub, Hc).
    assert (Hru : reported "updated" u = up)
      by (unfold reported; now rewrite Hsub, Hu).
    rewrite Hrc, Hru. do 2 f_equal. f_equal; lia.
Qed.

(** X15.  When every sub-run returns a result with integer counts under
    "created" and "updated", the fan-out completes: its result reports the
    sums of those counts, every user as processed, and the job row ends
    "completed" with the sums as items created and updated. *)
Theorem fan_out_sums_counts (w w_loop : World) (data_source : DataSource)
    (users : list UserDB) (job : nat) :
  fan_out_entry w = (Return (Some (data_source, users, job)), w_loop) ->
  (forall u, In u users ->
             exists r c up,
               sub_run (u_id u) = SubReturned r
               /\ dict_get "created" r = Some (PInt c)
               /\ dict_get "updated" r = Some (PInt up)) ->
  let n := Z.of_nat (List.length users) in
  let run := ingest_perplexity_for_all_users w in
  fst run
  = Return [ ("status", PStr "completed");
             ("created", PInt (sum_reported "created" users));
             ("updated", PInt (sum_reported "updated" users));
             ("users_processed", PInt n);
             ("total_users", PInt n) ]
  /\ exists completed_at,
       w_jobs (snd run)
       = (w_jobs w
          ++ [mkIngestionJob "perplexity_all_users" "completed"
                (clock (w_ticks w)) (Some completed_at)
                (AllUsersParameters n) (ds_id data_source)
                (Some (sum_reported "created" users))
                (Some (sum_reported "updated" users)) None])%list.
Proof.
  intros Hentry Hall n run. unfold run.
  destruct (fan_out_entry_row _ _ _ _ _ Hentry) as (-> & _ & Hjobs).
  destruct (run_users_sums n users Hall (mkFanOut 0 0 0) w_loop)
    as (w_end & Hloop & Hview).
  injection Hview as Hjobs' _.
  rewrite fan_out_from_entry, Hentry. cbv zeta. fold n.
  rewrite (completed_body_run _ _ total_created total_updated
             (fun st => fan_out_result st n) _ w_loop w_end Hloop).
  cbn [fst snd w_jobs set_open_sessions set_jobs].
  rewrite Hjobs', Hjobs, update_nth_last.
  split; [reflexivity|]. eexists. reflexivity.
Qed.

Lemma find_app_last {A : Type} (p : A -> bool) (l : list A) (x : A) :
  find p l = None -> p x = true -> find p (l ++ [x]) = Some x.
Proof.
  intros Hnone Hx. rewrite (find_app_none p l [x] Hnone). simpl.
  now rewrite Hx.
Qed.

(** X16.  The data source row is made at most once: a lookup that finds a
    row named "perplexity" changes nothing, a lookup that finds none
    appends one, and a second lookup always gives the answer of the first
    and leaves the world as the first left it. *)
Theorem data_source_created_once (w : World) :
  let first := get_data_source w in
  let second := get_data_source (snd first) in
  fst second = fst first
  /\ snd second = snd first
  /\ (forall d,
        find (fun d => String.eqb (ds_name d) "perplexity") (w_data_sources w)
        = Some d ->
        snd first = w /\ fst first
                         = Return (if ds_is_active d then Some d else None))
  /\ (find (fun d => String.eqb (ds_name d) "perplexity") (w_data_sources w)
      = None ->
      exists d, w_data_sources (snd first) = (w_data_sources w ++ [d])%list
                /\ ds_name d = "perplexity"
                /\ ds_is_active d = default_is_active).
Proof.
  cbv zeta. rewrite (get_data_source_run w).
  destruct (find _ (w_data_sources w)) as [d|] eqn:Hfind.
  - cbn [fst snd]. rewrite get_data_source_run, Hfind.
    split; [reflexivity|]. split; [reflexivity|].
    split; [|discriminate]. intros d' [= <-]. split; reflexivity.
  - cbv zeta. cbn [fst snd]. rewrite get_data_source_run.
    cbn [w_data_sources set_data_sources].
    rewrite (find_app_last _ _ _ Hfind) by reflexivity.
    cbn [ds_is_active].
    split; [reflexivity|]. split; [reflexivity|].
    split; [discriminate|]. intros _. eexists. repeat split.
Qed.

(** *** More on the query deriver *)

Lemma filter_nil {A : Type} (p : A -> bool) (l : list A) :
  (forall x, In x l -> p x = false) -> filter p l = [].
Proof.
  induction l as [|x l IH]; intros H; simpl; [reflexivity|].
  rewrite (H x (or_introl eq_refl)). apply IH.
  intros y Hy. apply H. now right.
Qed.

(** X17.  The queries selected for a user id, when none are given, are
    exactly these: for an id other than 0 whose user owns an active
    category, the queries derived from the active categories of that
    user, each with the category's id, name and the user's id; for the
    id 0, or a user none of whose categories is active, the fallback
    queries, tagged "General" and without ids. *)
Theorem queries_from_active_categories (categories : list UserCategory)
    (uid : Z) (q : QueryInfo) :
  In q (resolve_queries categories (Some uid) None) <->
  (uid <> 0
   /\ exists c d,
        In c categories
        /\ uc_is_active c = true
        /\ uc_user_id c = uid
        /\ q = QDict d
        /\ d = query_for_category c
        /\ qd_category_id d = Some (uc_id c)
        /\ qd_category_name d = Some (uc_category_name c)
        /\ qd_user_id d = Some uid)
  \/ ((uid = 0
       \/ forall c, In c categories -> uc_user_id c = uid ->
                    uc_is_active c = false)
      /\ exists text,
           In text fallback_queries
           /\ q = QDict (mkQueryDict (Some text) None (Some "General") None)).
Proof using.
  assert (Hfallback : In q (map QDict generate_fallback_queries) <->
                      exists text, In text fallback_queries
                                   /\ q = QDict (mkQueryDict (Some text) None
                                                   (Some "General") None)).
  { unfold generate_fallback_queries. rewrite map_map. rewrite in_map_iff.
    split; intros (text & H1 & H2); exists text; auto. }
  assert (Hmeta : forall c,
             qd_category_id (query_for_category c) = Some (uc_id c)
             /\ qd_category_name (query_for_category c)
                = Some (uc_category_name c)
             /\ qd_user_id (query_for_category c) = Some (uc_user_id c)).
  { intros c. unfold query_for_category.
    destruct (match uc_keywords c with Some ks => ks | None => [] end);
      repeat split. }
  assert (Hactive : forall c,
             In c (get_user_categories categories uid) <->
             In c categories /\ uc_is_active c = true /\ uc_user_id c = uid).
  { intros c. unfold get_user_categories. rewrite filter_In, andb_true_iff,
      Z.eqb_eq.
    split; [intros (Hin & Hu & Ha) | intros (Hin & Ha & Hu)]; auto. }
  unfold resolve_queries, user_id_given.
  destruct (Z.eqb_spec uid 0) as [Hzero|Hnonzero]; cbn [negb].
  - rewrite Hfallback. split.
    + intros H. right. auto.
    + intros [[Hne _] | [_ H]]; [contradiction | exact H].
  - destruct (get_user_categories categories uid) as [|c0 cs] eqn:Hcats.
    + rewrite Hfallback. split.
      * intros H. right. split; [|exact H]. right.
        intros c Hin Hu. destruct (uc_is_active c) eqn:Ha; [|reflexivity].
        assert (Hc : In c []) by (apply Hactive; auto). contradiction.
      * intros [(_ & c & d & Hin & Ha & Hu & _) | [_ H]]; [|exact H].
        assert (Hc : In c []) by (apply Hactive; auto). contradiction.
    + unfold generate_personalized_queries. rewrite map_map, in_map_iff.
      split.
      * intros (c & <- & Hin). left. split; [exact Hnonzero|].
        apply Hactive in Hin. destruct Hin as (Hin & Ha & Hu).
        destruct (Hmeta c) as (Hid & Hname & Huser).
        rewrite Hu in Huser.
        exists c, (query_for_category c). auto 10.
      * intros [(_ & c & d & Hin & Ha & Hu & -> & -> & _) | [[Hz | Hnone] _]].
        -- exists c. split; [reflexivity|]. apply Hactive. auto.
        -- contradiction.
        -- assert (Hc0 : In c0 (c0 :: cs)) by now left.
           apply Hactive in Hc0. destruct Hc0 as (Hin & Ha & Hu).
           rewrite (Hnone c0 Hin Hu) in Ha. discriminate.
Qed.

(** X18.  For a category whose keyword list is NULL or empty the derived
    query asks about the category by name: "What are the latest news and
    developments in <name>?", with the category's id, name and user id;
    one query is derived per category, in the order of the categories. *)
Theorem nameless_keywords_use_category_name
    (user_categories : list UserCategory) (i : nat) (category : UserCategory) :
  nth_error user_categories i = Some category ->
  uc_keywords category = None \/ uc_keywords category = Some [] ->
  List.length (generate_personalized_queries user_categories)
  = List.length user_categories
  /\ nth_error (generate_personalized_queries user_categories) i
     = Some (mkQueryDict
               (Some ("What are the latest news and developments in "
                      ++ uc_category_name category ++ "?"))
               (Some (uc_id category)) (Some (uc_category_name category))
               (Some (uc_user_id category))).
Proof.
  intros Hnth Hkw. unfold generate_personalized_queries.
  split; [apply length_map|].
  rewrite nth_error_map, Hnth. cbn [option_map].
  unfold query_for_category, question_in.
  destruct Hkw as [-> | ->]; reflexivity.
Qed.


End Runner.

(** C3 at the sample response. *)
Lemma extract_sample_text_witness :
  extract_content_from_response sample_response = [sample_item].
Proof.
  apply (extract_sample_text
           [("choices",
             JArr [JObj [("message", JObj [("content", JStr sample_text)])]])]
           [("message", JObj [("content", JStr sample_text)])]
           [("content", JStr sample_text)] []); reflexivity.
Defined.

(** ** The theorems at sample inputs *)

(** C1 at a store without feed items: the item titled "Title", then the
    same item again, and the item together with one titled "Other". *)
Lemma save_same_item_twice_witness :
  fst (save_feed_items sample_clock true [sample_item] active_source None
         (snd (save_feed_items sample_clock true [sample_item] active_source
                 None (world_of [active_source] [] []))))
  = Return (0, 1)
  /\ fst (save_feed_items sample_clock true [sample_item] active_source None
            (world_of [active_source] [] []))
     = Return (1, 0)
  /\ fst (save_feed_items sample_clock true [sample_item; other_item]
            active_source None (world_of [active_source] [] []))
     = Return (2, 0).
Proof.
  destruct (save_same_item_twice sample_clock true active_source sample_item
              "Title" None None (world_of [active_source] [] []) eq_refl)
    as (Hsecond & Hfirst & Hboth).
  split; [exact Hsecond|].
  split; [apply Hfirst; reflexivity|].
  apply (Hboth other_item "Other"); [reflexivity | discriminate | reflexivity
                                    | reflexivity].
Defined.

(** C2 (amended) at a fan-out over one user whose sub-run times out. *)
Lemma fan_out_sub_run_outcomes_witness :
  exists j,
    fst (ingest_perplexity_for_all_users sample_clock true late_sub_run
           (world_of [active_source] [sample_category] [alice]))
    = Raise (Retry 60 3)
    /\ nth_error
         (w_jobs
            (snd (ingest_perplexity_for_all_users sample_clock true
                    late_sub_run
                    (world_of [active_source] [sample_category] [alice]))))
         0
       = Some j
    /\ job_type j = "perplexity_all_users"
    /\ job_status j = "failed"
    /\ job_error_message j = Some "The operation timed out."
    /\ job_completed_at j = Some 1000000.
Proof.
  destruct (fan_out_sub_run_outcomes sample_clock true late_sub_run
              (world_of [active_source] [sample_category] [alice])
              (snd (fan_out_entry sample_clock true
                      (world_of [active_source] [sample_category] [alice])))
              active_source [alice] 0 eq_refl)
    as [Hfails _].
  destruct (Hfails alice (or_introl eq_refl) (or_introl eq_refl))
    as (j & e & w_exc & Hrun & Hretry & Hnth & Htype & Hstatus & Hmsg & Hdone).
  vm_compute in Hrun. injection Hrun as <- <-.
  exists j. repeat split; assumption.
Defined.

(** C2 as stated fails: a fan-out over one user whose sub-run returns the
    error result completes, with no user processed; the job row is
    "completed", without an error message, and no retry is requested. *)
Lemma error_result_is_skipped :
  fst (ingest_perplexity_for_all_users sample_clock true error_sub_run
         (world_of [active_source] [sample_category] [alice]))
  = Return [ ("status", PStr "completed"); ("created", PInt 0);
             ("updated", PInt 0); ("users_processed", PInt 0);
             ("total_users", PInt 1) ]
  /\ option_map (fun j => (job_status j, job_error_message j))
       (nth_error
          (w_jobs
             (snd (ingest_perplexity_for_all_users sample_clock true
                     error_sub_run
                     (world_of [active_source] [sample_category] [alice]))))
          0)
     = Some ("completed", None)
  /\ fst (ingest_perplexity_for_all_users sample_clock true error_sub_run
            (world_of [active_source] [sample_category] [alice]))
     <> Raise (Retry 60 3).
Proof.
  split; [reflexivity|]. split; [reflexivity | discriminate].
Qed.

(** C4 (amended) at an empty cache. *)
Lemma cache_put_then_get_witness :
  get_cached_response
    (cache_response []
       (cache_key_at plain_digest plain_date "q" default_model 0)
       first_payload 24 0)
    (cache_key_at plain_digest plain_date "q" default_model 5) 5
  = Some first_payload
  /\ get_cached_response []
       (cache_key_at plain_digest plain_date "q" default_model 5) 5
     = None
  /\ get_cached_response
       (cache_response
          (cache_response []
             (cache_key_at plain_digest plain_date "q" default_model 5)
             first_payload 0 0)
          (cache_key_at plain_digest plain_date "q" default_model 5)
          second_payload 24 1)
       (cache_key_at plain_digest plain_date "q" default_model 5) 5
     = Some second_payload.
Proof.
  destruct (cache_put_then_get plain_digest plain_date []
              (cache_key_at plain_digest plain_date "q" default_model 5) 5)
    as (Hput & Hexpired & Htwo).
  split; [apply Hput; [reflexivity | reflexivity | reflexivity | lia]|].
  split; [apply Hexpired; intros e []|].
  destruct (Htwo eq_refl first_payload second_payload 0 24 0 1)
    as (_ & _ & Hlater).
  apply Hlater. cbn. unfold microseconds_per_hour. lia.
Defined.

(** C4 as stated fails: after two puts under one key on one day, the get
    that follows the second put returns the payload of the first. *)
Lemma second_put_not_returned :
  get_cached_response
    (cache_response
       (cache_response []
          (cache_key_at plain_digest plain_date "q" default_model 0)
          first_payload 24 0)
       (cache_key_at plain_digest plain_date "q" default_model 1)
       second_payload 24 1)
    (cache_key_at plain_digest plain_date "q" default_model 2) 2
  = Some first_payload
  /\ first_payload <> second_payload
  /\ day_of 2 = day_of 1.
Proof.
  split; [reflexivity|]. split; [discriminate | reflexivity].
Qed.

(** C5 (amended) at a user whose only category is not active. *)
Lemma no_categories_fallback_witness :
  get_user_categories [dormant_category] 7 = []
  /\ resolve_queries [dormant_category] (Some 7) None
     = map QDict generate_fallback_queries.
Proof.
  split; [reflexivity|].
  apply (no_categories_fallback [dormant_category] 7). reflexivity.
Defined.

(** C5 as stated fails: for a user whose only category is not active,
    [generate_personalized_queries] yields no query at all. *)
Lemma no_categories_no_personalized_queries :
  get_user_categories [dormant_category] 7 = []
  /\ generate_personalized_queries (get_user_categories [dormant_category] 7)
     = []
  /\ generate_personalized_queries (get_user_categories [dormant_category] 7)
     <> generate_fallback_queries.
Proof.
  split; [reflexivity|]. split; [reflexivity | discriminate].
Qed.

(** C6 at the category "Transfers" with the keywords Arsenal and Chelsea. *)
Lemma keyword_query_attached_witness :
  exists q,
    nth_error (generate_personalized_queries [sample_category]) 0 = Some q
    /\ qd_query q
       = Some "What are the latest news and developments about Arsenal, Chelsea?"
    /\ qd_category_id q = Some 11
    /\ qd_category_name q = Some "Transfers"
    /\ qd_user_id q = Some 7.
Proof.
  destruct (keyword_query_attached [sample_category] 0 sample_category
              ["Arsenal"; "Chelsea"] eq_refl eq_refl)
    as (q & Hnth & Hquery & _ & Hid & Hname & Huser); [discriminate|].
  exists q. auto.
Defined.

(** C7 at a store whose data source is not active. *)
Lemma missing_source_no_job_witness :
  fst (ingest_perplexity sample_clock None no_network plain_digest plain_date
         true true (Some 7) None (world_of [inactive_source] [] []))
  = Return [("error", PStr "Data source not found")]
  /\ w_jobs
       (snd (ingest_perplexity sample_clock None no_network plain_digest
               plain_date true true (Some 7) None
               (world_of [inactive_source] [] [])))
     = []
  /\ fst (ingest_perplexity_for_all_users sample_clock true late_sub_run
            (world_of [inactive_source] [] []))
     = Return [("error", PStr "Data source not found")]
  /\ w_jobs
       (snd (ingest_perplexity_for_all_users sample_clock true late_sub_run
               (world_of [inactive_source] [] [])))
     = [].
Proof.
  destruct (missing_source_no_job sample_clock None no_network plain_digest
              plain_date true true late_sub_run (Some 7) None
              (world_of [inactive_source] [] []) eq_refl)
    as [(Hs & Hsj & _) (Hf & Hfj & _)].
  auto.
Defined.

(** C8 at a run whose only query is a dict without the key "query". *)
Lemma failed_run_recorded_and_retried_witness :
  exists j,
    fst (ingest_perplexity sample_clock (Some "key") no_network plain_digest
           plain_date true true None (Some keyless_queries)
           (world_of [active_source] [] []))
    = Raise (Retry 60 3)
    /\ nth_error
         (w_jobs
            (snd (ingest_perplexity sample_clock (Some "key") no_network
                    plain_digest plain_date true true None
                    (Some keyless_queries) (world_of [active_source] [] []))))
         0
       = Some j
    /\ job_type j = "perplexity"
    /\ job_status j = "failed"
    /\ job_error_message j = Some "'query'"
    /\ job_completed_at j = Some 1000000.
Proof.
  exact (failed_run_recorded_and_retried sample_clock (Some "key") no_network
           plain_digest plain_date true true None (Some keyless_queries)
           (world_of [active_source] [] [])
           (snd (single_run_entry sample_clock true None (Some keyless_queries)
                   (world_of [active_source] [] [])))
           (snd (single_run_entry sample_clock true None (Some keyless_queries)
                   (world_of [active_source] [] [])))
           active_source keyless_queries 0 (KeyError "query")
           eq_refl eq_refl).
Defined.

(** C9 fails on the code: with a data source that is not active the single
    run returns the error result and the session it opened stays open. *)
Theorem early_return_keeps_session_open :
  fst (ingest_perplexity sample_clock None no_network plain_digest plain_date
         true true (Some 7) None (world_of [inactive_source] [] []))
  = Return error_result
  /\ w_open_sessions (world_of [inactive_source] [] []) = 0%nat
  /\ w_open_sessions
       (snd (ingest_perplexity sample_clock None no_network plain_digest
               plain_date true true (Some 7) None
               (world_of [inactive_source] [] [])))
     = 1%nat.
Proof.
  repeat split.
Qed.

(** C10 at a store without feed items and two items without a title. *)
Lemma titleless_items_pile_up_witness :
  exists created,
    fst (save_feed_items sample_clock true [untitled_item; untitled_item]
           active_source None (world_of [active_source] [] []))
    = Return (2, 0)
    /\ w_feed_items
         (snd (save_feed_items sample_clock true [untitled_item; untitled_item]
                 active_source None (world_of [active_source] [] [])))
       = created
    /\ map fi_title created = [Some "Untitled"; Some "Untitled"].
Proof.
  destruct (titleless_items_pile_up sample_clock true active_source
              [untitled_item; untitled_item] None
              (world_of [active_source] [] []))
    as (created & Hcount & Hrows & _).
  - repeat constructor.
  - intros row [].
  - eexists. split; [exact Hcount|]. split; reflexivity.
Defined.

(** ** Further properties past the section, and their sample inputs *)

(** X8.  A payload fetched from the provider is reused: when a call found
    no cached row for its key, got a non-empty answer and stored it, a
    second call for the same query and model on the same calendar day,
    within 24 hours of the write, returns that answer from the cache and
    writes nothing, whatever the provider would answer the second time. *)
Theorem fetched_response_is_reused (clock : nat -> Z) (api_key : option string)
    (http_post http_post' : string -> string -> HttpOutcome)
    (md5_hexdigest : string -> string) (date_text : Z -> string)
    (query model : string) (w : World) (result : json) :
  api_key_missing api_key = false ->
  get_cached_response (w_content_cache w)
    (cache_key_at md5_hexdigest date_text query model (clock (w_ticks w)))
    (clock (S (w_ticks w)))
  = None ->
  http_post query model = HttpOk result ->
  truthy result = true ->
  day_of (clock (S (S (S (w_ticks w))))) = day_of (clock (w_ticks w)) ->
  clock (S (w_ticks w)) <= clock (S (S (S (S (w_ticks w))))) ->
  clock (S (S (S (S (w_ticks w))))) < clock (S (S (w_ticks w))) + 24 * microseconds_per_hour ->
  let first :=
    query_perplexity clock api_key http_post md5_hexdigest date_text query
      model w in
  let second :=
    query_perplexity clock api_key http_post' md5_hexdigest date_text query
      model (snd first) in
  fst first = Return (Some result)
  /\ List.length (w_content_cache (snd first))
     = S (List.length (w_content_cache w))
  /\ fst second = Return (Some result)
  /\ w_content_cache (snd second) = w_content_cache (snd first).
Proof.
  intros Hkey Hmiss Hpost Htruthy Hday Hmono Hlive first second.
  assert (Hfirst := query_perplexity_fetch_run clock api_key http_post
                      md5_hexdigest date_text query model w result Hkey).
  rewrite Hmiss in Hfirst. specialize (Hfirst eq_refl Hpost).
  unfold second, first. rewrite Hfirst. cbn [fst snd].
  split; [reflexivity|].
  split; [cbn; rewrite length_app, Nat.add_comm; reflexivity|].
  set (key := cache_key_at md5_hexdigest date_text query model
                (clock (w_ticks w))) in *.
  assert (Hfind : find (cache_entry_matches key (clock (S (S (S (S (w_ticks w)))))))
                       (w_content_cache w) = None).
  { apply (find_none_weaker
             (cache_entry_matches key (clock (S (w_ticks w))))).
    - intros e. now apply cache_entry_matches_earlier.
    - unfold get_cached_response in Hmiss.
      destruct (find _ (w_content_cache w)); [discriminate | reflexivity]. }
  rewrite (query_perplexity_hit_run clock api_key http_post' md5_hexdigest
             date_text query model _ result Hkey); [auto | | exact Htruthy].
  cbn [w_ticks w_content_cache set_content_cache set_ticks].
  rewrite (cache_key_same_day md5_hexdigest date_text query model
             (clock (w_ticks w)) _ Hday).
  fold key. unfold get_cached_response.
  rewrite (find_app_none _ _ _ Hfind). simpl.
  now rewrite new_entry_matches.
Qed.

(** X8 at an empty cache, a provider that answers the first call and a
    provider out of reach at the second. *)
Lemma fetched_response_is_reused_witness :
  fst (query_perplexity sample_clock (Some "key") no_network plain_digest
         plain_date "q" default_model
         (snd (query_perplexity sample_clock (Some "key") answering
                 plain_digest plain_date "q" default_model
                 (world_of [active_source] [] []))))
  = Return (Some first_payload).
Proof.
  assert (Hmono : sample_clock 1 <= sample_clock 4)
    by (vm_compute; discriminate).
  assert (Hlive : sample_clock 4
                  < sample_clock 2 + 24 * microseconds_per_hour)
    by reflexivity.
  destruct (fetched_response_is_reused sample_clock (Some "key") answering
              no_network plain_digest plain_date "q" default_model
              (world_of [active_source] [] []) first_payload
              eq_refl eq_refl eq_refl eq_refl eq_refl Hmono Hlive)
    as (_ & _ & Hsecond & _).
  exact Hsecond.
Defined.

(** X6 at a store with one row and an item that has a title only. *)
Lemma save_without_fields_keeps_text_witness :
  exists kept created,
    w_feed_items
      (snd (save_feed_items sample_clock true [other_item] active_source None
              world_with_row))
    = (kept ++ created)%list
    /\ Forall2 touched_only [stored_row] kept.
Proof.
  apply (save_without_fields_keeps_text sample_clock true [other_item]
           active_source None world_with_row).
  repeat constructor.
Defined.

(** X7 at a cache that holds an answer to the query. *)
Lemma cache_hit_returned_witness :
  fst (query_perplexity sample_clock (Some "key") no_network plain_digest
         plain_date "q" default_model cached_world)
  = Return (Some first_payload)
  /\ w_content_cache
       (snd (query_perplexity sample_clock (Some "key") no_network
               plain_digest plain_date "q" default_model cached_world))
     = w_content_cache cached_world.
Proof.
  destruct (cache_hit_returned sample_clock (Some "key") no_network
              plain_digest plain_date "q" default_model cached_world
              first_payload eq_refl eq_refl eq_refl)
    as (Hresult & Hcache & _).
  split; assumption.
Defined.

(** X9 at an empty cache and a provider that answers. *)
Lemma cache_written_when_answered_witness :
  fst (query_perplexity sample_clock (Some "key") answering plain_digest
         plain_date "q" default_model (world_of [active_source] [] []))
  = Return (Some first_payload)
  /\ w_content_cache
       (snd (query_perplexity sample_clock (Some "key") answering
               plain_digest plain_date "q" default_model
               (world_of [active_source] [] [])))
     = [mkContentCache "q:llama-3.1-sonar-small-128k-online:2024-01-01"
          "perplexity" first_payload 86402000000].
Proof.
  destruct (cache_written_when_answered sample_clock (Some "key") answering
              plain_digest plain_date "q" default_model
              (world_of [active_source] [] []))
    as (Hanswered & _).
  apply (Hanswered first_payload); [|reflexivity|reflexivity].
  exists "key". split; [reflexivity | discriminate].
Defined.

(** X10 at a run of one plain query that the provider does not answer. *)
Lemma completed_run_recorded_witness :
  fst (ingest_perplexity sample_clock (Some "key") no_network plain_digest
         plain_date true true None (Some [QStr "q"])
         (world_of [active_source] [] []))
  = Return [ ("status", PStr "completed"); ("created", PInt 0);
             ("updated", PInt 0); ("queries_processed", PInt 1);
             ("user_id", PNone) ].
Proof.
  destruct (completed_run_recorded sample_clock (Some "key") no_network
              plain_digest plain_date true true None (Some [QStr "q"])
              (world_of [active_source] [] [])
              (snd (single_run_entry sample_clock true None (Some [QStr "q"])
                      (world_of [active_source] [] [])))
              (snd (run_queries sample_clock (Some "key") no_network
                      plain_digest plain_date true active_source 1 0
                      [QStr "q"] (0, 0)
                      (snd (single_run_entry sample_clock true None
                              (Some [QStr "q"])
                              (world_of [active_source] [] [])))))
              active_source [QStr "q"] 0 (0, 0) eq_refl eq_refl)
    as (Hresult & _).
  exact Hresult.
Defined.

(** X11 at the same run. *)
Lemma run_adds_one_terminal_job_witness :
  exists j,
    w_jobs
      (snd (ingest_perplexity sample_clock (Some "key") no_network
              plain_digest plain_date true true None (Some [QStr "q"])
              (world_of [active_source] [] [])))
    = [j]
    /\ job_type j = "perplexity"
    /\ (job_status j = "completed" \/ job_status j = "failed")
    /\ job_completed_at j <> None.
Proof.
  exact (run_adds_one_terminal_job sample_clock (Some "key") no_network
           plain_digest plain_date true true None (Some [QStr "q"])
           (world_of [active_source] [] [])
           (snd (single_run_entry sample_clock true None (Some [QStr "q"])
                   (world_of [active_source] [] [])))
           active_source [QStr "q"] 0 eq_refl).
Defined.

(** X12 at a loop over one plain query. *)
Lemma progress_event_per_query_witness :
  exists events,
    w_progress
      (snd (run_queries sample_clock (Some "key") no_network plain_digest
              plain_date true active_source 1 0 [QStr "q"] (0, 0)
              (world_of [active_source] [] [])))
    = events
    /\ List.length events = 1%nat.
Proof.
  destruct (progress_event_per_query sample_clock (Some "key") no_network
              plain_digest plain_date true active_source 1 [QStr "q"] 0
              (0, 0) (0, 0) (world_of [active_source] [] [])
              (snd (run_queries sample_clock (Some "key") no_network
                      plain_digest plain_date true active_source 1 0
                      [QStr "q"] (0, 0) (world_of [active_source] [] [])))
              eq_refl)
    as (events & Hevents & Hlen & _).
  exists events. split; [exact Hevents | exact Hlen].
Defined.

(** X13 at a run for no user, with an empty credential. *)
Lemma run_without_credential_witness :
  fst (ingest_perplexity sample_clock (Some "") answering plain_digest
         plain_date true true None None (world_of [active_source] [] []))
  = Return [ ("status", PStr "completed"); ("created", PInt 0);
             ("updated", PInt 0); ("queries_processed", PInt 5);
             ("user_id", PNone) ].
Proof.
  destruct (run_without_credential sample_clock (Some "") answering
              plain_digest plain_date true true None
              (world_of [active_source] [] [])
              (snd (single_run_entry sample_clock true None None
                      (world_of [active_source] [] [])))
              active_source (map QDict generate_fallback_queries) 0
              (or_intror eq_refl) eq_refl)
    as (Hresult & _).
  exact Hresult.
Defined.

(** X14 at a single run and a fan-out that both end in a retry request. *)
Lemma resolved_tasks_release_session_witness :
  w_open_sessions
    (snd (ingest_perplexity sample_clock (Some "key") no_network plain_digest
            plain_date true true None (Some keyless_queries)
            (world_of [active_source] [sample_category] [alice])))
  = 0%nat
  /\ w_open_sessions
       (snd (ingest_perplexity_for_all_users sample_clock true late_sub_run
               (world_of [active_source] [sample_category] [alice])))
     = 0%nat.
Proof.
  destruct (resolved_tasks_release_session sample_clock (Some "key")
              no_network plain_digest plain_date true true late_sub_run None
              (Some keyless_queries)
              (world_of [active_source] [sample_category] [alice]))
    as [Hsingle Hfan].
  split.
  - exact (Hsingle active_source keyless_queries 0%nat _ eq_refl).
  - exact (Hfan active_source [alice] 0%nat _ eq_refl).
Defined.

(** X15 at a fan-out over one user whose sub-run reports 2 and 1. *)
Lemma fan_out_sums_counts_witness :
  fst (ingest_perplexity_for_all_users sample_clock true counting_sub_run
         (world_of [active_source] [sample_category] [alice]))
  = Return [ ("status", PStr "completed"); ("created", PInt 2);
             ("updated", PInt 1); ("users_processed", PInt 1);
             ("total_users", PInt 1) ].
Proof.
  destruct (fan_out_sums_counts sample_clock true counting_sub_run
              (world_of [active_source] [sample_category] [alice])
              (snd (fan_out_entry sample_clock true
                      (world_of [active_source] [sample_category] [alice])))
              active_source [alice] 0 eq_refl)
    as (Hresult & _).
  - intros u _. eexists _, 2, 1. repeat split.
  - exact Hresult.
Defined.

(** X17 at a user with one active and one dormant category. *)
Lemma queries_from_active_categories_witness :
  In (QDict (mkQueryDict
               (Some "What are the latest news and developments about Arsenal, Chelsea?")
               (Some 11) (Some "Transfers") (Some 7)))
     (resolve_queries [sample_category; dormant_category] (Some 7) None).
Proof.
  apply (proj2 (queries_from_active_categories
                  [sample_category; dormant_category] 7 _)).
  left. split; [discriminate|].
  exists sample_category, (query_for_category sample_category).
  repeat split. left. reflexivity.
Defined.

(** X18 at a category without keywords. *)
Lemma nameless_keywords_use_category_name_witness :
  nth_error (generate_personalized_queries [bare_category]) 0
  = Some (mkQueryDict
            (Some "What are the latest news and developments in Premier League?")
            (Some 13) (Some "Premier League") (Some 7)).
Proof.
  destruct (nameless_keywords_use_category_name [bare_category] 0
              bare_category eq_refl (or_introl eq_refl))
    as [_ Hquery].
  exact Hquery.
Defined.
